(** * Axis-constrain input processor

    A shallow embedding of
    [src/input_processors/input_processor_axis_constrain.c]: the per-axis
    accumulators, the dominant-axis arbiter, the sticky and non-sticky
    suppression policies, the release handler, the event gate and the
    instance macro, followed by the properties proved about them.

    C integers are mathematical integers ([Z]) together with their
    conversions written out: [to_int32] and [to_int64] are the wrap-around
    of a conversion to [int32_t] and [int64_t].  Every handler of the
    driver runs with the instance's spinlock held, so each one is an atomic
    transformer of the instance data. *)

From Stdlib Require Import ZArith List Bool Lia String.
Import ListNotations.

Local Open Scope Z_scope.

(** ** Machine integers *)

Definition INT32_MAX : Z := 2147483647.
Definition INT32_MIN : Z := - INT32_MAX - 1.

(** Two's complement wrap-around of [z] to a signed integer of [bits] bits. *)
Definition wrap (bits z : Z) : Z :=
  (z + 2 ^ (bits - 1)) mod 2 ^ bits - 2 ^ (bits - 1).

Definition to_int32 : Z -> Z := wrap 32.
Definition to_int64 : Z -> Z := wrap 64.

Definition int32_range (z : Z) : Prop := INT32_MIN <= z <= INT32_MAX.

(** [#define MAX_ACCUM (INT32_MAX / 2)]; C division truncates. *)
Definition MAX_ACCUM : Z := Z.quot INT32_MAX 2.

(** ** Data model *)

Inductive axis_state : Type :=
| AXIS_NONE
| AXIS_X
| AXIS_Y.

Definition axis_state_eqb (a b : axis_state) : bool :=
  match a, b with
  | AXIS_NONE, AXIS_NONE | AXIS_X, AXIS_X | AXIS_Y, AXIS_Y => true
  | _, _ => false
  end.

Record axis_constrain_config : Type := mk_config {
  threshold        : Z;
  sticky           : bool;
  release_after_ms : Z
}.

(** The instance data.  The back pointer [dev] is written once and never
    read, and the spinlock is what makes the handlers atomic; neither is a
    field here.  [release_work] is the delayable work item: [Some ms] while a
    release is scheduled [ms] milliseconds after the call that armed it,
    [None] while it is idle. *)
Record axis_constrain_data : Type := mk_data {
  locked_axis  : axis_state;
  accum_x      : Z;
  accum_y      : Z;
  abs_accum_x  : Z;
  abs_accum_y  : Z;
  release_work : option Z
}.

(** Zephyr's [struct input_event]: the reporting device (an opaque handle),
    the sync flag, and the type, code and value of the event. *)
Record input_event : Type := mk_event {
  ev_dev   : Z;
  ev_sync  : Z;
  ev_type  : Z;
  ev_code  : Z;
  ev_value : Z
}.

Definition set_value (e : input_event) (v : Z) : input_event :=
  {| ev_dev := ev_dev e; ev_sync := ev_sync e; ev_type := ev_type e;
     ev_code := ev_code e; ev_value := v |}.

(** ** Accumulator *)

Definition reset_state_locked (data : axis_constrain_data) : axis_constrain_data :=
  {| locked_axis := AXIS_NONE;
     accum_x := 0;
     accum_y := 0;
     abs_accum_x := 0;
     abs_accum_y := 0;
     release_work := release_work data |}.

(** [abs(INT32_MIN)] is undefined behaviour, hence the guard. *)
Definition safe_abs (value : Z) : Z :=
  if value =? INT32_MIN then INT32_MAX else Z.abs value.

Definition safe_accum_add (current delta : Z) : Z :=
  let result := to_int64 (current + delta) in
  if result >? MAX_ACCUM then MAX_ACCUM
  else if result <? - MAX_ACCUM then - MAX_ACCUM
  else to_int32 result.

Definition update_accum (data : axis_constrain_data) (is_x : bool) (delta : Z)
  : axis_constrain_data :=
  if is_x then
    let ax := safe_accum_add (accum_x data) delta in
    {| locked_axis := locked_axis data;
       accum_x := ax;
       accum_y := accum_y data;
       abs_accum_x := safe_abs ax;
       abs_accum_y := abs_accum_y data;
       release_work := release_work data |}
  else
    let ay := safe_accum_add (accum_y data) delta in
    {| locked_axis := locked_axis data;
       accum_x := accum_x data;
       accum_y := ay;
       abs_accum_x := abs_accum_x data;
       abs_accum_y := safe_abs ay;
       release_work := release_work data |}.

(** ** Axis arbiter *)

Definition determine_dominant_axis (data : axis_constrain_data) (threshold : Z)
  : axis_state :=
  if (abs_accum_x data >=? threshold) && (abs_accum_x data >? abs_accum_y data)
  then AXIS_X
  else if (abs_accum_y data >=? threshold) && (abs_accum_y data >? abs_accum_x data)
  then AXIS_Y
  else if (abs_accum_x data >=? threshold) && (abs_accum_x data =? abs_accum_y data)
  then AXIS_X
  else AXIS_NONE.

(** ** Release *)

Definition release_work_handler (data : axis_constrain_data) : axis_constrain_data :=
  reset_state_locked data.

(** [k_work_reschedule]: whatever was pending is replaced by a firing [ms]
    milliseconds from now. *)
Definition k_work_reschedule (data : axis_constrain_data) (ms : Z)
  : axis_constrain_data :=
  {| locked_axis := locked_axis data;
     accum_x := accum_x data;
     accum_y := accum_y data;
     abs_accum_x := abs_accum_x data;
     abs_accum_y := abs_accum_y data;
     release_work := Some ms |}.

(** [k_work_init_delayable]: the work item starts idle. *)
Definition k_work_init_delayable (data : axis_constrain_data) : axis_constrain_data :=
  {| locked_axis := locked_axis data;
     accum_x := accum_x data;
     accum_y := accum_y data;
     abs_accum_x := abs_accum_x data;
     abs_accum_y := abs_accum_y data;
     release_work := None |}.

(** The timer expiring: the kernel takes the work item off its queue, which
    leaves it idle, and runs the handler. *)
Definition release_fires (data : axis_constrain_data) : axis_constrain_data :=
  release_work_handler (k_work_init_delayable data).

(** ** Suppression engine *)

(** [(locked == AXIS_X && is_x) || (locked == AXIS_Y && !is_x)] *)
Definition on_axis (a : axis_state) (is_x : bool) : bool :=
  (axis_state_eqb a AXIS_X && is_x) || (axis_state_eqb a AXIS_Y && negb is_x).

Definition set_locked_axis (data : axis_constrain_data) (a : axis_state)
  : axis_constrain_data :=
  {| locked_axis := a;
     accum_x := accum_x data;
     accum_y := accum_y data;
     abs_accum_x := abs_accum_x data;
     abs_accum_y := abs_accum_y data;
     release_work := release_work data |}.

Definition handle_sticky_mode (data : axis_constrain_data)
  (config : axis_constrain_config) (event : input_event) (is_x : bool)
  : axis_constrain_data * input_event :=
  let data1 :=
    if axis_state_eqb (locked_axis data) AXIS_NONE
    then set_locked_axis data (determine_dominant_axis data (threshold config))
    else data in
  if axis_state_eqb (locked_axis data1) AXIS_NONE
  then (data1, set_value event 0)
  else
    let is_locked_axis := on_axis (locked_axis data1) is_x in
    if negb is_locked_axis
    then (data1, set_value event 0)
    else (data1, event).

(** [-config->threshold], an [int]. *)
Definition neg_int (z : Z) : Z := to_int32 (- z).

Definition handle_non_sticky_mode (data : axis_constrain_data)
  (config : axis_constrain_config) (event : input_event) (is_x : bool)
  : axis_constrain_data * input_event :=
  let dominant := determine_dominant_axis data (threshold config) in
  if axis_state_eqb dominant AXIS_NONE
  then (data, set_value event 0)
  else
    let is_dominant := on_axis dominant is_x in
    if negb is_dominant
    then (data, set_value event 0)
    else if axis_state_eqb dominant AXIS_X
    then
      if abs_accum_x data >? threshold config
      then ({| locked_axis := locked_axis data;
               accum_x := if accum_x data >? 0 then threshold config
                          else neg_int (threshold config);
               accum_y := 0;
               abs_accum_x := threshold config;
               abs_accum_y := 0;
               release_work := release_work data |}, event)
      else ({| locked_axis := locked_axis data;
               accum_x := accum_x data;
               accum_y := 0;
               abs_accum_x := abs_accum_x data;
               abs_accum_y := 0;
               release_work := release_work data |}, event)
    else
      if abs_accum_y data >? threshold config
      then ({| locked_axis := locked_axis data;
               accum_x := 0;
               accum_y := if accum_y data >? 0 then threshold config
                          else neg_int (threshold config);
               abs_accum_x := 0;
               abs_accum_y := threshold config;
               release_work := release_work data |}, event)
      else ({| locked_axis := locked_axis data;
               accum_x := 0;
               accum_y := accum_y data;
               abs_accum_x := 0;
               abs_accum_y := abs_accum_y data;
               release_work := release_work data |}, event).

(** ** Consultations of the arbiter

    To count the calls a routine makes to the arbiter, the two policies are
    written once more with the arbiter as an effect: [arbiter] is any
    computation in a monad [M], and the routine is the same sequence of
    steps around it.  Run with the arbiter itself in the identity monad this
    is the routine above; run with an arbiter that records each call it
    receives, it yields the list of the calls made. *)

Section Consultations.

Variable M : Type -> Type.
Variable ret : forall A : Type, A -> M A.
Variable bind : forall A B : Type, M A -> (A -> M B) -> M B.
Variable arbiter : axis_constrain_data -> Z -> M axis_state.

Definition handle_sticky_mode_in (data : axis_constrain_data)
  (config : axis_constrain_config) (event : input_event) (is_x : bool)
  : M (axis_constrain_data * input_event) :=
  bind _ _
    (if axis_state_eqb (locked_axis data) AXIS_NONE
     then bind _ _ (arbiter data (threshold config))
            (fun a => ret _ (set_locked_axis data a))
     else ret _ data)
    (fun data1 =>
       ret _
         (if axis_state_eqb (locked_axis data1) AXIS_NONE
          then (data1, set_value event 0)
          else
            let is_locked_axis := on_axis (locked_axis data1) is_x in
            if negb is_locked_axis
            then (data1, set_value event 0)
            else (data1, event))).

Definition handle_non_sticky_mode_in (data : axis_constrain_data)
  (config : axis_constrain_config) (event : input_event) (is_x : bool)
  : M (axis_constrain_data * input_event) :=
  bind _ _ (arbiter data (threshold config))
    (fun dominant =>
       ret _
         (if axis_state_eqb dominant AXIS_NONE
          then (data, set_value event 0)
          else
            let is_dominant := on_axis dominant is_x in
            if negb is_dominant
            then (data, set_value event 0)
            else if axis_state_eqb dominant AXIS_X
            then
              if abs_accum_x data >? threshold config
              then ({| locked_axis := locked_axis data;
                       accum_x := if accum_x data >? 0 then threshold config
                                  else neg_int (threshold config);
                       accum_y := 0;
                       abs_accum_x := threshold config;
                       abs_accum_y := 0;
                       release_work := release_work data |}, event)
              else ({| locked_axis := locked_axis data;
                       accum_x := accum_x data;
                       accum_y := 0;
                       abs_accum_x := abs_accum_x data;
                       abs_accum_y := 0;
                       release_work := release_work data |}, event)
            else
              if abs_accum_y data >? threshold config
              then ({| locked_axis := locked_axis data;
                       accum_x := 0;
                       accum_y := if accum_y data >? 0 then threshold config
                                  else neg_int (threshold config);
                       abs_accum_x := 0;
                       abs_accum_y := threshold config;
                       release_work := release_work data |}, event)
              else ({| locked_axis := locked_axis data;
                       accum_x := 0;
                       accum_y := accum_y data;
                       abs_accum_x := 0;
                       abs_accum_y := abs_accum_y data;
                       release_work := release_work data |}, event))).

End Consultations.

(** Running a routine with the arbiter itself: the identity monad. *)
Definition direct (A : Type) : Type := A.

Definition direct_ret (A : Type) (a : A) : direct A := a.

Definition direct_bind (A B : Type) (m : direct A) (f : A -> direct B)
  : direct B := f m.

(** A call to the arbiter, by its arguments, and a result together with the
    calls made to obtain it. *)
Definition call : Type := (axis_constrain_data * Z)%type.

Definition logged (A : Type) : Type := (A * list call)%type.

Definition logged_ret (A : Type) (a : A) : logged A := (a, []).

Definition logged_bind (A B : Type) (m : logged A) (f : A -> logged B)
  : logged B :=
  let '(a, calls) := m in
  let '(b, calls') := f a in
  (b, calls ++ calls').

(** The arbiter, recording the call it receives. *)
Definition logged_arbiter (data : axis_constrain_data) (threshold : Z)
  : logged axis_state :=
  (determine_dominant_axis data threshold, [(data, threshold)]).

(** The sticky routine with the calls it makes to the arbiter. *)
Definition handle_sticky_mode_calls (data : axis_constrain_data)
  (config : axis_constrain_config) (event : input_event) (is_x : bool)
  : axis_constrain_data * input_event * list (axis_constrain_data * Z) :=
  handle_sticky_mode_in logged logged_ret logged_bind logged_arbiter
    data config event is_x.

(** ** Event gate

    The event type and the two axis codes come from Zephyr's input headers;
    the development is parametric in them. *)

Section EventGate.

Variables INPUT_EV_REL INPUT_REL_X INPUT_REL_Y : Z.

(** The events that get past the two early returns. *)
Definition qualifies (event : input_event) : bool :=
  (ev_type event =? INPUT_EV_REL)
  && ((ev_code event =? INPUT_REL_X) || (ev_code event =? INPUT_REL_Y)).

(** The events that one of the two early returns sends back: not a
    relative-motion event, or on neither of the two axes. *)
Definition irrelevant (event : input_event) : Prop :=
  ev_type event <> INPUT_EV_REL
  \/ (ev_code event <> INPUT_REL_X /\ ev_code event <> INPUT_REL_Y).

(** The result is the returned status, the instance data and the event as
    the caller sees them afterwards. *)
Definition axis_constrain_handle_event (config : axis_constrain_config)
  (data : axis_constrain_data) (event : input_event)
  : Z * axis_constrain_data * input_event :=
  if negb (ev_type event =? INPUT_EV_REL) then (0, data, event)
  else if negb (ev_code event =? INPUT_REL_X) && negb (ev_code event =? INPUT_REL_Y)
  then (0, data, event)
  else
    let is_x := ev_code event =? INPUT_REL_X in
    let data1 := update_accum data is_x (ev_value event) in
    if sticky config then
      let data2 := k_work_reschedule data1 (release_after_ms config) in
      let '(data3, event3) := handle_sticky_mode data2 config event is_x in
      (0, data3, event3)
    else
      let '(data3, event3) := handle_non_sticky_mode data1 config event is_x in
      (0, data3, event3).

(** The event handler with the arbiter as an effect, and the handler with
    the calls it makes to the arbiter. *)
Definition axis_constrain_handle_event_in (M : Type -> Type)
  (ret : forall A : Type, A -> M A)
  (bind : forall A B : Type, M A -> (A -> M B) -> M B)
  (arbiter : axis_constrain_data -> Z -> M axis_state)
  (config : axis_constrain_config)
  (data : axis_constrain_data) (event : input_event)
  : M (Z * axis_constrain_data * input_event)%type :=
  if negb (ev_type event =? INPUT_EV_REL) then ret _ (0, data, event)
  else if negb (ev_code event =? INPUT_REL_X) && negb (ev_code event =? INPUT_REL_Y)
  then ret _ (0, data, event)
  else
    let is_x := ev_code event =? INPUT_REL_X in
    let data1 := update_accum data is_x (ev_value event) in
    if sticky config then
      let data2 := k_work_reschedule data1 (release_after_ms config) in
      bind _ _ (handle_sticky_mode_in M ret bind arbiter data2 config event is_x)
        (fun r => let '(data3, event3) := r in ret _ (0, data3, event3))
    else
      bind _ _ (handle_non_sticky_mode_in M ret bind arbiter data1 config event is_x)
        (fun r => let '(data3, event3) := r in ret _ (0, data3, event3)).

Definition axis_constrain_handle_event_calls (config : axis_constrain_config)
  (data : axis_constrain_data) (event : input_event)
  : Z * axis_constrain_data * input_event * list call :=
  axis_constrain_handle_event_in logged logged_ret logged_bind logged_arbiter
    config data event.

(** What happens to one processor instance: a motion event is handed to it,
    or its pending release timer expires. *)
Inductive stimulus : Type :=
| Motion (event : input_event)
| Timer.

Definition step (config : axis_constrain_config) (data : axis_constrain_data)
  (s : stimulus) : axis_constrain_data :=
  match s with
  | Motion event => snd (fst (axis_constrain_handle_event config data event))
  | Timer =>
      match release_work data with
      | Some _ => release_fires data
      | None => data
      end
  end.

Definition exec (config : axis_constrain_config) (data : axis_constrain_data)
  (l : list stimulus) : axis_constrain_data :=
  fold_left (step config) l data.

(** A stream of events through the processor: the final data and the events
    as they come out, in order. *)
Fixpoint process (config : axis_constrain_config) (data : axis_constrain_data)
  (events : list input_event) : axis_constrain_data * list input_event :=
  match events with
  | [] => (data, [])
  | event :: rest =>
      let '(_, data', event') := axis_constrain_handle_event config data event in
      let '(data'', out) := process config data' rest in
      (data'', event' :: out)
  end.

End EventGate.

(** ** Construction *)

Definition axis_constrain_init (config : axis_constrain_config)
  (data : axis_constrain_data) : Z * axis_constrain_data :=
  (0, k_work_init_delayable (reset_state_locked data)).

(** The devicetree properties of one instance, as [DT_INST_PROP] expands
    them: integer constants and a boolean. *)
Record dt_props : Type := mk_props {
  prop_threshold        : Z;
  prop_sticky           : bool;
  prop_release_after_ms : Z
}.

(** Static storage before the init function has run: all zero. *)
Definition static_data : axis_constrain_data :=
  {| locked_axis := AXIS_NONE; accum_x := 0; accum_y := 0;
     abs_accum_x := 0; abs_accum_y := 0; release_work := None |}.

(** [AC_INST(n)]: the two build assertions, then the definitions of the
    instance's data and configuration.  A failed assertion stops the build
    with its message and nothing is defined. *)
Definition AC_INST (p : dt_props)
  : string + (axis_constrain_config * axis_constrain_data) :=
  if negb (prop_threshold p >? 0)
  then inl "threshold must be greater than 0"%string
  else if negb (negb (prop_sticky p) || (prop_release_after_ms p >? 0))
  then inl "release_after_ms must be > 0 when sticky mode is enabled"%string
  else inr ({| threshold := to_int32 (prop_threshold p);
               sticky := prop_sticky p;
               release_after_ms := to_int32 (prop_release_after_ms p) |},
            static_data).

(** An instance comes into being through [AC_INST] and the init function the
    macro registers for it. *)
Definition construct (p : dt_props)
  : string + (axis_constrain_config * axis_constrain_data) :=
  match AC_INST p with
  | inl msg => inl msg
  | inr (config, data) => inr (config, snd (axis_constrain_init config data))
  end.

(** The state of a freshly initialised instance. *)
Definition initial_data : axis_constrain_data :=
  snd (axis_constrain_init (mk_config 0 false 0) static_data).

(** ** Predicates used in the statements *)

(** The configuration the build assertions let through, as an [int]. *)
Definition valid_threshold (config : axis_constrain_config) : Prop :=
  0 < threshold config <= INT32_MAX.

(** The accumulator invariant for one axis and for the instance. *)
Definition axis_inv (accum abs_accum : Z) : Prop :=
  Z.abs accum <= MAX_ACCUM /\ abs_accum = safe_abs accum.

Definition accum_inv (data : axis_constrain_data) : Prop :=
  axis_inv (accum_x data) (abs_accum_x data)
  /\ axis_inv (accum_y data) (abs_accum_y data).

(** The axis an event is on. *)
Definition axis_of (is_x : bool) : axis_state := if is_x then AXIS_X else AXIS_Y.

Definition other_axis (a : axis_state) : axis_state :=
  match a with
  | AXIS_X => AXIS_Y
  | AXIS_Y => AXIS_X
  | AXIS_NONE => AXIS_NONE
  end.

(** The accumulator and the absolute accumulator of a given axis. *)
Definition accum_of (a : axis_state) (data : axis_constrain_data) : Z :=
  match a with
  | AXIS_X => accum_x data
  | AXIS_Y => accum_y data
  | AXIS_NONE => 0
  end.

Definition abs_accum_of (a : axis_state) (data : axis_constrain_data) : Z :=
  match a with
  | AXIS_X => abs_accum_x data
  | AXIS_Y => abs_accum_y data
  | AXIS_NONE => 0
  end.

(** ** Sample inputs

    Concrete configurations and events for the worked examples below.  The
    three event constants are given the values of Zephyr's input event
    codes. *)

Definition EV_REL : Z := 2.
Definition REL_X : Z := 0.
Definition REL_Y : Z := 1.

Definition sticky_10 : axis_constrain_config := mk_config 10 true 150.
Definition sticky_5 : axis_constrain_config := mk_config 5 true 100.
Definition loose_5 : axis_constrain_config := mk_config 5 false 100.

Definition rel_x (v : Z) : input_event := mk_event 0 0 EV_REL REL_X v.
Definition rel_y (v : Z) : input_event := mk_event 0 0 EV_REL REL_Y v.
(** A key press and a wheel movement: neither is handled. *)
Definition key_press : input_event := mk_event 0 1 1 30 1.
Definition wheel (v : Z) : input_event := mk_event 0 1 EV_REL 8 v.

Definition locked_on (a : axis_state) (ax ay : Z) : axis_constrain_data :=
  mk_data a ax ay (Z.abs ax) (Z.abs ay) (Some 150).

(** ** Logging helpers

    The label [axis_name] gives an axis in the debug messages, and the label
    the release handler computes inline for the lock it is about to drop. *)

Definition axis_name (axis : axis_state) : string :=
  match axis with
  | AXIS_X => "X"%string
  | AXIS_Y => "Y"%string
  | AXIS_NONE => "NONE"%string
  end.

Definition release_log_label (data : axis_constrain_data) : string :=
  if axis_state_eqb (locked_axis data) AXIS_X then "X"%string
  else if axis_state_eqb (locked_axis data) AXIS_Y then "Y"%string
  else "NONE"%string.

(** ** Settled non-sticky state

    The accumulators the non-sticky decay leaves behind: the dominant axis at
    the threshold, with sign [s], and the other axis at zero. *)

Definition settled (is_x : bool) (s th : Z) (lock : axis_state)
  (work : option Z) : axis_constrain_data :=
  if is_x
  then {| locked_axis := lock; accum_x := s * th; accum_y := 0;
          abs_accum_x := th; abs_accum_y := 0; release_work := work |}
  else {| locked_axis := lock; accum_x := 0; accum_y := s * th;
          abs_accum_x := 0; abs_accum_y := th; release_work := work |}.

(** ** The driver with remainder tracking

    The second source file of the driver: unsigned path length is
    accumulated per axis, the lock is taken as soon as one axis leads at or
    above the threshold, nothing is suppressed before that, and the values
    suppressed afterwards can be summed into per-axis remainders.  Its [int32_t]
    additions and negation are written with the wrap-around of the target. *)

Module Legacy.

Record axis_constrain_config : Type := mk_config {
  threshold        : Z;
  sticky           : bool;
  release_after_ms : Z;
  track_remainders : bool
}.

Record axis_constrain_data : Type := mk_data {
  locked_axis  : axis_state;
  accum_x      : Z;
  accum_y      : Z;
  remainder_x  : Z;
  remainder_y  : Z;
  release_work : option Z
}.

Definition release_work_handler (data : axis_constrain_data) : axis_constrain_data :=
  {| locked_axis := AXIS_NONE;
     accum_x := 0;
     accum_y := 0;
     remainder_x := 0;
     remainder_y := 0;
     release_work := release_work data |}.

(** [k_work_cancel_delayable] followed by [k_work_schedule]. *)
Definition reschedule (data : axis_constrain_data) (ms : Z) : axis_constrain_data :=
  {| locked_axis := locked_axis data;
     accum_x := accum_x data;
     accum_y := accum_y data;
     remainder_x := remainder_x data;
     remainder_y := remainder_y data;
     release_work := Some ms |}.

Definition set_accum_x (data : axis_constrain_data) (v : Z) : axis_constrain_data :=
  {| locked_axis := locked_axis data;
     accum_x := v;
     accum_y := accum_y data;
     remainder_x := remainder_x data;
     remainder_y := remainder_y data;
     release_work := release_work data |}.

Definition set_accum_y (data : axis_constrain_data) (v : Z) : axis_constrain_data :=
  {| locked_axis := locked_axis data;
     accum_x := accum_x data;
     accum_y := v;
     remainder_x := remainder_x data;
     remainder_y := remainder_y data;
     release_work := release_work data |}.

Definition set_locked_axis (data : axis_constrain_data) (a : axis_state)
  : axis_constrain_data :=
  {| locked_axis := a;
     accum_x := accum_x data;
     accum_y := accum_y data;
     remainder_x := remainder_x data;
     remainder_y := remainder_y data;
     release_work := release_work data |}.

Definition set_remainder_x (data : axis_constrain_data) (v : Z) : axis_constrain_data :=
  {| locked_axis := locked_axis data;
     accum_x := accum_x data;
     accum_y := accum_y data;
     remainder_x := v;
     remainder_y := remainder_y data;
     release_work := release_work data |}.

Definition set_remainder_y (data : axis_constrain_data) (v : Z) : axis_constrain_data :=
  {| locked_axis := locked_axis data;
     accum_x := accum_x data;
     accum_y := accum_y data;
     remainder_x := remainder_x data;
     remainder_y := v;
     release_work := release_work data |}.

(** The handler's three steps on a qualifying event, in its order:
    "accumulate movement", "determine axis if not yet locked" and "apply
    axis constraint". *)

Definition accumulate (data : axis_constrain_data) (is_x : bool) (value : Z)
  : axis_constrain_data :=
  let magnitude := if value >? 0 then value else to_int32 (- value) in
  if is_x then set_accum_x data (to_int32 (accum_x data + magnitude))
  else set_accum_y data (to_int32 (accum_y data + magnitude)).

Definition determine (config : axis_constrain_config)
  (data : axis_constrain_data) : axis_constrain_data :=
  if axis_state_eqb (locked_axis data) AXIS_NONE then
    if (accum_x data >=? threshold config) && (accum_x data >? accum_y data)
    then set_locked_axis data AXIS_X
    else if (accum_y data >=? threshold config) && (accum_y data >? accum_x data)
    then set_locked_axis data AXIS_Y
    else data
  else data.

Definition constrain (config : axis_constrain_config)
  (data : axis_constrain_data) (event : input_event) (is_x : bool)
  : axis_constrain_data * input_event :=
  let value := ev_value event in
  if axis_state_eqb (locked_axis data) AXIS_X && negb is_x then
    ((if track_remainders config
      then set_remainder_y data (to_int32 (remainder_y data + value))
      else data),
     set_value event 0)
  else if axis_state_eqb (locked_axis data) AXIS_Y && is_x then
    ((if track_remainders config
      then set_remainder_x data (to_int32 (remainder_x data + value))
      else data),
     set_value event 0)
  else (data, event).

Section EventGate.

Variables INPUT_EV_REL INPUT_REL_X INPUT_REL_Y : Z.

Definition axis_constrain_handle_event (config : axis_constrain_config)
  (data : axis_constrain_data) (event : input_event)
  : Z * axis_constrain_data * input_event :=
  if negb (ev_type event =? INPUT_EV_REL) then (0, data, event)
  else if negb (ev_code event =? INPUT_REL_X) && negb (ev_code event =? INPUT_REL_Y)
  then (0, data, event)
  else
    let data1 :=
      if sticky config then reschedule data (release_after_ms config) else data in
    let is_x := ev_code event =? INPUT_REL_X in
    let data2 := accumulate data1 is_x (ev_value event) in
    let data3 := determine config data2 in
    let '(data4, event4) := constrain config data3 event is_x in
    (0, data4, event4).

(** A stream of events through this driver. *)
Fixpoint process (config : axis_constrain_config) (data : axis_constrain_data)
  (events : list input_event) : axis_constrain_data * list input_event :=
  match events with
  | [] => (data, [])
  | event :: rest =>
      let '(_, data', event') := axis_constrain_handle_event config data event in
      let '(data'', out) := process config data' rest in
      (data'', event' :: out)
  end.

(** The sum of the values of the qualifying events of a stream that are on
    the X axis ([on_x = true]) or on the Y axis ([on_x = false]). *)
Fixpoint axis_total (on_x : bool) (events : list input_event) : Z :=
  match events with
  | [] => 0
  | event :: rest =>
      (if qualifies INPUT_EV_REL INPUT_REL_X INPUT_REL_Y event
          && Bool.eqb (ev_code event =? INPUT_REL_X) on_x
       then ev_value event else 0)
      + axis_total on_x rest
  end.

End EventGate.

Definition axis_constrain_init (data : axis_constrain_data)
  : Z * axis_constrain_data :=
  (0, {| locked_axis := AXIS_NONE;
         accum_x := 0;
         accum_y := 0;
         remainder_x := 0;
         remainder_y := 0;
         release_work := None |}).

End Legacy.

(** ** Sticky gate

    What the sticky policy keeps true of an instance whose lock is
    undetermined: neither magnitude has reached the threshold. *)

Definition unlocked_below (th : Z) (data : axis_constrain_data) : Prop :=
  locked_axis data = AXIS_NONE ->
  abs_accum_x data < th /\ abs_accum_y data < th.

(** Sample inputs for the driver with remainder tracking. *)

Definition tracking_10 : Legacy.axis_constrain_config :=
  Legacy.mk_config 10 false 0 true.

Definition tracking_locked_x : Legacy.axis_constrain_data :=
  Legacy.mk_data AXIS_X 12 0 0 0 None.

(** * Properties *)

(** ** Integer conversions *)

Ltac int_consts :=
  change MAX_ACCUM with 1073741823 in *;
  change INT32_MIN with (-2147483648) in *;
  change INT32_MAX with 2147483647 in *.

(** Case analysis on every integer comparison of the goal. *)
Ltac split_cmp :=
  repeat match goal with
    | |- context [?a >? ?b] => rewrite (Z.gtb_ltb a b)
    | |- context [?a >=? ?b] => rewrite (Z.geb_leb a b)
    end;
  repeat match goal with
    | |- context [?a <? ?b] => destruct (Z.ltb_spec a b)
    | |- context [?a <=? ?b] => destruct (Z.leb_spec a b)
    | |- context [?a =? ?b] => destruct (Z.eqb_spec a b)
    end.

Lemma to_int32_small (z : Z) : int32_range z -> to_int32 z = z.
Proof.
  unfold int32_range, to_int32, wrap; int_consts; intros Hz.
  change (2 ^ (32 - 1)) with 2147483648; change (2 ^ 32) with 4294967296.
  rewrite Z.mod_small; lia.
Qed.

Lemma to_int64_small (z : Z) :
  - 9223372036854775808 <= z < 9223372036854775808 -> to_int64 z = z.
Proof.
  unfold to_int64, wrap; intros Hz.
  change (2 ^ (64 - 1)) with 9223372036854775808.
  change (2 ^ 64) with 18446744073709551616.
  rewrite Z.mod_small; lia.
Qed.

Lemma neg_int_small (z : Z) : 0 < z <= INT32_MAX -> neg_int z = - z.
Proof.
  intros Hz; unfold neg_int; apply to_int32_small.
  unfold int32_range; int_consts; lia.
Qed.

(** ** Accumulator *)

Lemma safe_accum_add_bound (current delta : Z) :
  Z.abs (safe_accum_add current delta) <= MAX_ACCUM.
Proof.
  unfold safe_accum_add.
  set (result := to_int64 (current + delta)); clearbody result.
  split_cmp; int_consts; try lia.
  rewrite to_int32_small; [lia | unfold int32_range; int_consts; lia].
Qed.

(** On [int32_t] operands the 64-bit sum is exact and the routine is the
    clamp of the sum to [-MAX_ACCUM .. MAX_ACCUM]. *)
Lemma safe_accum_add_clamp (current delta : Z) :
  int32_range current -> int32_range delta ->
  safe_accum_add current delta
  = Z.max (- MAX_ACCUM) (Z.min MAX_ACCUM (current + delta)).
Proof.
  unfold int32_range, safe_accum_add; int_consts; intros Hc Hd.
  rewrite to_int64_small by lia.
  split_cmp; try lia.
  rewrite to_int32_small; [lia | unfold int32_range; int_consts; lia].
Qed.

Lemma safe_abs_INT32_MIN : safe_abs INT32_MIN = INT32_MAX.
Proof. reflexivity. Qed.

Lemma safe_abs_bounded (value : Z) :
  Z.abs value <= MAX_ACCUM -> safe_abs value = Z.abs value.
Proof.
  unfold safe_abs; int_consts; intros Hv.
  split_cmp; lia.
Qed.

Lemma axis_inv_update (current delta : Z) :
  axis_inv (safe_accum_add current delta)
           (safe_abs (safe_accum_add current delta)).
Proof. split; [apply safe_accum_add_bound | reflexivity]. Qed.

Lemma accum_inv_update_accum (data : axis_constrain_data) (is_x : bool) (delta : Z) :
  accum_inv data -> accum_inv (update_accum data is_x delta).
Proof.
  intros [Hx Hy]; unfold update_accum, accum_inv.
  destruct is_x; cbn [accum_x accum_y abs_accum_x abs_accum_y];
    split; auto using axis_inv_update.
Qed.

Lemma axis_inv_zero : axis_inv 0 0.
Proof. split; [int_consts; lia | reflexivity]. Qed.

Lemma accum_inv_reset (data : axis_constrain_data) :
  accum_inv (reset_state_locked data).
Proof. split; apply axis_inv_zero. Qed.

(** Clamping an accumulator that exceeds the threshold keeps the invariant. *)
Lemma axis_inv_decay (accum abs_accum th : Z) :
  0 < th <= INT32_MAX ->
  axis_inv accum abs_accum ->
  th < abs_accum ->
  axis_inv (if accum >? 0 then th else neg_int th) th.
Proof.
  intros Hth [Hb Habs] Hlt.
  rewrite safe_abs_bounded in Habs by exact Hb.
  rewrite neg_int_small by exact Hth.
  unfold axis_inv, safe_abs; revert Hth Hb; int_consts; intros Hth Hb.
  split_cmp; lia.
Qed.

(** ** Axis arbiter *)

(** C1.  The arbiter reads nothing but the two absolute accumulators and the
    threshold.  It answers X when the X magnitude has reached the threshold
    and is strictly the larger, Y when the Y magnitude has reached the
    threshold and is strictly the larger, X again when the X magnitude has
    reached the threshold and the two are equal, and NONE in every other
    case. *)
Theorem determine_dominant_axis_cases (data : axis_constrain_data) (th : Z) :
  (forall data' : axis_constrain_data,
      abs_accum_x data' = abs_accum_x data ->
      abs_accum_y data' = abs_accum_y data ->
      determine_dominant_axis data' th = determine_dominant_axis data th)
  /\ (th <= abs_accum_x data -> abs_accum_y data < abs_accum_x data ->
      determine_dominant_axis data th = AXIS_X)
  /\ (th <= abs_accum_y data -> abs_accum_x data < abs_accum_y data ->
      determine_dominant_axis data th = AXIS_Y)
  /\ (th <= abs_accum_x data -> abs_accum_x data = abs_accum_y data ->
      determine_dominant_axis data th = AXIS_X)
  /\ (~ (th <= abs_accum_x data /\ abs_accum_y data < abs_accum_x data) ->
      ~ (th <= abs_accum_y data /\ abs_accum_x data < abs_accum_y data) ->
      ~ (th <= abs_accum_x data /\ abs_accum_x data = abs_accum_y data) ->
      determine_dominant_axis data th = AXIS_NONE).
Proof.
  repeat split.
  - intros data' Hx Hy; unfold determine_dominant_axis; now rewrite Hx, Hy.
  - intros H1 H2; unfold determine_dominant_axis; split_cmp; cbn; lia || reflexivity.
  - intros H1 H2; unfold determine_dominant_axis; split_cmp; cbn; lia || reflexivity.
  - intros H1 H2; unfold determine_dominant_axis; split_cmp; cbn; lia || reflexivity.
  - intros H1 H2 H3; unfold determine_dominant_axis; split_cmp; cbn; lia || reflexivity.
Qed.

(** The arbiter answers NONE exactly when both magnitudes are below the
    threshold. *)
Lemma determine_dominant_axis_none (data : axis_constrain_data) (th : Z) :
  determine_dominant_axis data th = AXIS_NONE
  <-> abs_accum_x data < th /\ abs_accum_y data < th.
Proof.
  unfold determine_dominant_axis; split_cmp; cbn; split;
    solve [discriminate | lia | reflexivity | intros; exfalso; lia].
Qed.

(** Arming the release timer does not change what the arbiter sees. *)
Lemma determine_dominant_axis_reschedule (data : axis_constrain_data) (ms th : Z) :
  determine_dominant_axis (k_work_reschedule data ms) th
  = determine_dominant_axis data th.
Proof. reflexivity. Qed.

(** ** Release and construction *)

(** C8.  From any lock value and any accumulator values, the release handler
    leaves the lock undetermined and the two accumulators and the two
    absolute accumulators at zero: the lock and the accumulators are those
    of a freshly initialised instance.  The handler itself leaves the work
    item alone; when it runs because the timer fired, the work item is idle
    and the whole instance data is that of a freshly initialised instance. *)
Theorem release_work_handler_resets (data : axis_constrain_data) :
  locked_axis (release_work_handler data) = AXIS_NONE
  /\ accum_x (release_work_handler data) = 0
  /\ accum_y (release_work_handler data) = 0
  /\ abs_accum_x (release_work_handler data) = 0
  /\ abs_accum_y (release_work_handler data) = 0
  /\ k_work_init_delayable (release_work_handler data) = initial_data
  /\ release_work (release_work_handler data) = release_work data
  /\ release_fires data = initial_data.
Proof. repeat split. Qed.

Lemma axis_constrain_init_status (config : axis_constrain_config)
  (data : axis_constrain_data) :
  fst (axis_constrain_init config data) = 0
  /\ snd (axis_constrain_init config data) = initial_data.
Proof. split; reflexivity. Qed.

(** C9.  With a threshold that is not positive, or with sticky set and a
    release delay that is not positive, a build assertion of the instance
    macro fails and no instance exists.  With a positive threshold and,
    when sticky is set, a positive release delay, the instance is created:
    its configuration holds the three properties and its data is the
    initialised one. *)
Theorem construct_validates (p : dt_props) :
  (prop_threshold p <= 0
   \/ (prop_sticky p = true /\ prop_release_after_ms p <= 0) ->
   exists msg : string, construct p = inl msg)
  /\ (0 < prop_threshold p ->
      (prop_sticky p = true -> 0 < prop_release_after_ms p) ->
      construct p
      = inr ({| threshold := to_int32 (prop_threshold p);
                sticky := prop_sticky p;
                release_after_ms := to_int32 (prop_release_after_ms p) |},
             initial_data)).
Proof.
  unfold construct, AC_INST; split.
  - intros Hbad; destruct (prop_sticky p); cbn [negb orb];
      split_cmp; cbn [negb]; eauto; exfalso; destruct Hbad as [H1 | [H1 H2]];
      lia || discriminate.
  - intros Hth Hrel; destruct (prop_sticky p); cbn [negb orb];
      split_cmp; cbn [negb]; try reflexivity; try lia.
Qed.

(** Properties that fit in an [int] are stored as they are. *)
Lemma construct_config_exact (p : dt_props) (config : axis_constrain_config)
  (data : axis_constrain_data) :
  int32_range (prop_threshold p) ->
  int32_range (prop_release_after_ms p) ->
  construct p = inr (config, data) ->
  threshold config = prop_threshold p
  /\ sticky config = prop_sticky p
  /\ release_after_ms config = prop_release_after_ms p
  /\ valid_threshold config
  /\ (sticky config = true -> 0 < release_after_ms config).
Proof.
  intros Ht Hr; unfold construct, AC_INST.
  destruct (prop_threshold p >? 0) eqn:E1; cbn [negb]; [| discriminate].
  destruct (negb (prop_sticky p) || (prop_release_after_ms p >? 0)) eqn:E2;
    cbn [negb]; [| discriminate].
  intros H; injection H as <- _; cbn [threshold sticky release_after_ms].
  rewrite !to_int32_small by assumption.
  unfold valid_threshold; cbn [threshold].
  destruct Ht as [_ Ht]; repeat split; try lia.
  intros Hs; rewrite Hs in E2; cbn in E2; lia.
Qed.

(** ** Event handling *)

Section Handling.

Variables INPUT_EV_REL INPUT_REL_X INPUT_REL_Y : Z.

Local Abbreviation handle_event :=
  (axis_constrain_handle_event INPUT_EV_REL INPUT_REL_X INPUT_REL_Y).
Local Abbreviation qualifying := (qualifies INPUT_EV_REL INPUT_REL_X INPUT_REL_Y).
Local Abbreviation ignored := (irrelevant INPUT_EV_REL INPUT_REL_X INPUT_REL_Y).
Local Abbreviation run := (process INPUT_EV_REL INPUT_REL_X INPUT_REL_Y).
Local Abbreviation is_x_of event := (ev_code event =? INPUT_REL_X).

Lemma qualifies_irrelevant (event : input_event) :
  qualifying event = false <-> ignored event.
Proof.
  unfold qualifies, irrelevant; split_cmp; cbn; split; intros H;
    try reflexivity; try discriminate; try (right; split; assumption);
    try (left; assumption); exfalso; destruct H as [H | [H1 H2]]; congruence.
Qed.

Lemma handle_event_irrelevant (config : axis_constrain_config)
  (data : axis_constrain_data) (event : input_event) :
  qualifying event = false -> handle_event config data event = (0, data, event).
Proof.
  unfold qualifies, axis_constrain_handle_event; split_cmp; cbn;
    intros H; reflexivity || discriminate.
Qed.

Lemma handle_event_qualifying (config : axis_constrain_config)
  (data : axis_constrain_data) (event : input_event) :
  qualifying event = true ->
  handle_event config data event
  = let data1 := update_accum data (is_x_of event) (ev_value event) in
    if sticky config
    then
      let r := handle_sticky_mode
                 (k_work_reschedule data1 (release_after_ms config))
                 config event (is_x_of event) in
      (0, fst r, snd r)
    else
      let r := handle_non_sticky_mode data1 config event (is_x_of event) in
      (0, fst r, snd r).
Proof.
  unfold qualifies, axis_constrain_handle_event; intros H.
  destruct (ev_type event =? INPUT_EV_REL); [| discriminate].
  destruct (ev_code event =? INPUT_REL_X), (ev_code event =? INPUT_REL_Y);
    try discriminate; cbn [negb andb];
    destruct (sticky config); cbv zeta;
    match goal with |- context [let '(_, _) := ?r in _] => destruct r end;
    reflexivity.
Qed.

(** C7.  An event that is not a relative-motion event, or whose code is
    neither of the two axes, comes back with status 0, itself untouched and
    the instance data (lock, accumulators, release timer) untouched; so
    does any stream of such events, from any state. *)
Theorem irrelevant_events_pass (config : axis_constrain_config)
  (data : axis_constrain_data) :
  (forall event : input_event,
      ignored event -> handle_event config data event = (0, data, event))
  /\ (forall events : list input_event,
         Forall ignored events -> run config data events = (data, events)).
Proof.
  split.
  - intros event H; apply handle_event_irrelevant, qualifies_irrelevant, H.
  - intros events H; induction H as [| event rest Hev _ IH]; [reflexivity |].
    cbn [process].
    rewrite handle_event_irrelevant by (apply qualifies_irrelevant, Hev).
    now rewrite IH.
Qed.

(** *** Sticky mode *)

Lemma handle_sticky_mode_locked (data : axis_constrain_data)
  (config : axis_constrain_config) (event : input_event) (is_x : bool) :
  locked_axis data <> AXIS_NONE ->
  handle_sticky_mode data config event is_x
  = (data, if on_axis (locked_axis data) is_x then event else set_value event 0).
Proof.
  unfold handle_sticky_mode; intros H.
  destruct (locked_axis data) eqn:E; [congruence | |];
    cbn [axis_state_eqb]; rewrite E; cbn [axis_state_eqb];
    destruct (on_axis _ is_x); reflexivity.
Qed.

Lemma handle_sticky_mode_unlocked (data : axis_constrain_data)
  (config : axis_constrain_config) (event : input_event) (is_x : bool) :
  locked_axis data = AXIS_NONE ->
  handle_sticky_mode data config event is_x
  = (set_locked_axis data (determine_dominant_axis data (threshold config)),
     if axis_state_eqb (determine_dominant_axis data (threshold config))
                       (axis_of is_x)
     then event else set_value event 0).
Proof.
  unfold handle_sticky_mode; intros H; rewrite H; cbn [axis_state_eqb].
  destruct (determine_dominant_axis data (threshold config)), is_x; reflexivity.
Qed.

Lemma handle_sticky_mode_in_direct (data : axis_constrain_data)
  (config : axis_constrain_config) (event : input_event) (is_x : bool) :
  handle_sticky_mode_in direct direct_ret direct_bind determine_dominant_axis
    data config event is_x
  = handle_sticky_mode data config event is_x.
Proof. reflexivity. Qed.

Lemma handle_non_sticky_mode_in_direct (data : axis_constrain_data)
  (config : axis_constrain_config) (event : input_event) (is_x : bool) :
  handle_non_sticky_mode_in direct direct_ret direct_bind
    determine_dominant_axis data config event is_x
  = handle_non_sticky_mode data config event is_x.
Proof. reflexivity. Qed.

Lemma handle_event_in_direct (config : axis_constrain_config)
  (data : axis_constrain_data) (event : input_event) :
  axis_constrain_handle_event_in INPUT_EV_REL INPUT_REL_X INPUT_REL_Y
    direct direct_ret direct_bind determine_dominant_axis config data event
  = handle_event config data event.
Proof.
  unfold axis_constrain_handle_event_in, axis_constrain_handle_event.
  destruct (negb _); [reflexivity |].
  destruct (_ && _); [reflexivity |].
  cbv zeta; destruct (sticky config); unfold direct_bind, direct_ret;
    rewrite ?handle_sticky_mode_in_direct, ?handle_non_sticky_mode_in_direct;
    reflexivity.
Qed.

Lemma handle_sticky_mode_calls_log (data : axis_constrain_data)
  (config : axis_constrain_config) (event : input_event) (is_x : bool) :
  handle_sticky_mode_calls data config event is_x
  = (handle_sticky_mode data config event is_x,
     if axis_state_eqb (locked_axis data) AXIS_NONE
     then [(data, threshold config)] else []).
Proof.
  unfold handle_sticky_mode_calls, handle_sticky_mode_in, handle_sticky_mode,
    logged_bind, logged_ret, logged_arbiter.
  destruct (axis_state_eqb (locked_axis data) AXIS_NONE); reflexivity.
Qed.

Lemma handle_sticky_mode_calls_erase (data : axis_constrain_data)
  (config : axis_constrain_config) (event : input_event) (is_x : bool) :
  fst (handle_sticky_mode_calls data config event is_x)
  = handle_sticky_mode data config event is_x.
Proof. now rewrite handle_sticky_mode_calls_log. Qed.

Lemma on_axis_axis_of (a : axis_state) (is_x : bool) :
  on_axis a is_x = axis_state_eqb a (axis_of is_x).
Proof. destruct a, is_x; reflexivity. Qed.

Lemma axis_state_eqb_eq (a b : axis_state) :
  axis_state_eqb a b = true <-> a = b.
Proof. destruct a, b; cbn; split; congruence. Qed.

Lemma handle_event_sticky_locked (config : axis_constrain_config)
  (data : axis_constrain_data) (event : input_event) :
  sticky config = true ->
  locked_axis data <> AXIS_NONE ->
  qualifying event = true ->
  handle_event config data event
  = (0,
     k_work_reschedule (update_accum data (is_x_of event) (ev_value event))
                       (release_after_ms config),
     if axis_state_eqb (locked_axis data) (axis_of (is_x_of event))
     then event else set_value event 0).
Proof.
  intros Hs Hl Hq.
  rewrite handle_event_qualifying by exact Hq; cbv zeta; rewrite Hs.
  rewrite handle_sticky_mode_locked.
  - cbn [fst snd]; rewrite on_axis_axis_of.
    destruct (is_x_of event); reflexivity.
  - destruct (is_x_of event); exact Hl.
Qed.

(** C2.  In sticky mode, starting with the lock on an axis [a] and with any
    accumulator values, a stream of events of any length leaves the lock on
    [a] (the stream is arbitrary, so this holds after each of its events),
    and of the events that come out, a qualifying event on [a] is the event
    that went in, a qualifying event on the other axis is the event that
    went in with value 0, and an event that does not qualify is the event
    that went in.  Only the release handler takes the lock back to
    undetermined. *)
Theorem sticky_lock_persists (config : axis_constrain_config) (a : axis_state)
  (events : list input_event) (data : axis_constrain_data) :
  sticky config = true ->
  a <> AXIS_NONE ->
  locked_axis data = a ->
  locked_axis (fst (run config data events)) = a
  /\ Forall2
       (fun event event' : input_event =>
          (qualifying event = true -> axis_of (is_x_of event) = a ->
           event' = event)
          /\ (qualifying event = true -> axis_of (is_x_of event) <> a ->
              event' = set_value event 0)
          /\ (qualifying event = false -> event' = event))
       events (snd (run config data events))
  /\ locked_axis (release_work_handler (fst (run config data events)))
     = AXIS_NONE.
Proof.
  intros Hs Ha; revert data.
  induction events as [| event rest IH]; intros data Hl.
  - cbn; split; [exact Hl | split; [constructor | reflexivity]].
  - cbn [process].
    destruct (qualifying event) eqn:Hq.
    + rewrite handle_event_sticky_locked by congruence.
      specialize (IH (k_work_reschedule
                        (update_accum data (is_x_of event) (ev_value event))
                        (release_after_ms config))).
      destruct (run config _ rest) as [data'' out]; cbn [fst snd] in *.
      assert (Hl' : locked_axis
                      (k_work_reschedule
                         (update_accum data (is_x_of event) (ev_value event))
                         (release_after_ms config)) = a)
        by (destruct (is_x_of event); exact Hl).
      destruct (IH Hl') as [IH1 [IH2 IH3]].
      split; [exact IH1 | split; [| reflexivity]].
      constructor; [| exact IH2].
      rewrite Hl; split; [| split].
      * intros _ Hax; rewrite Hax.
        now replace (axis_state_eqb a a) with true
          by (symmetry; apply axis_state_eqb_eq; reflexivity).
      * intros _ Hax.
        destruct (axis_state_eqb a (axis_of (is_x_of event))) eqn:E;
          [| reflexivity].
        apply axis_state_eqb_eq in E; congruence.
      * intros H; congruence.
    + rewrite handle_event_irrelevant by exact Hq.
      specialize (IH data Hl).
      destruct (run config data rest) as [data'' out]; cbn [fst snd] in *.
      destruct IH as [IH1 [IH2 IH3]].
      split; [exact IH1 | split; [| reflexivity]].
      constructor; [| exact IH2].
      split; [| split]; congruence.
Qed.

Lemma handle_event_calls_sticky (config : axis_constrain_config)
  (data : axis_constrain_data) (event : input_event) :
  sticky config = true ->
  qualifying event = true ->
  axis_constrain_handle_event_calls INPUT_EV_REL INPUT_REL_X INPUT_REL_Y
    config data event
  = (handle_event config data event,
     snd (handle_sticky_mode_calls
            (k_work_reschedule
               (update_accum data (is_x_of event) (ev_value event))
               (release_after_ms config))
            config event (is_x_of event))).
Proof.
  intros Hs Hq.
  rewrite handle_event_qualifying by exact Hq; cbv zeta; rewrite Hs.
  unfold axis_constrain_handle_event_calls, axis_constrain_handle_event_in.
  revert Hq; unfold qualifies.
  destruct (ev_type event =? INPUT_EV_REL); [| discriminate].
  destruct (ev_code event =? INPUT_REL_X), (ev_code event =? INPUT_REL_Y);
    try discriminate; intros _; cbn [negb andb]; cbv zeta; rewrite Hs;
    fold (handle_sticky_mode_calls
            (k_work_reschedule (update_accum data true (ev_value event))
               (release_after_ms config)) config event true);
    fold (handle_sticky_mode_calls
            (k_work_reschedule (update_accum data false (ev_value event))
               (release_after_ms config)) config event false);
    rewrite handle_sticky_mode_calls_log; unfold logged_bind, logged_ret;
    cbn [snd];
    match goal with
    | |- context [handle_sticky_mode ?d ?c ?e ?b] =>
        destruct (handle_sticky_mode d c e b)
    end;
    cbn [fst snd]; rewrite app_nil_r; reflexivity.
Qed.

(** C5.  In sticky mode with the lock undetermined, a qualifying event is
    accumulated, the release timer is armed, and the arbiter is called
    exactly once, on the updated accumulators: the calls the event handler
    makes to an arbiter that records them are that single call.  The
    arbiter's answer becomes the lock on this very event: with NONE the lock
    stays undetermined and the event comes out with value 0; with X or Y the
    lock is on that axis and the event comes out as it went in when it is
    on that axis, and with value 0 when it is on the other.  An event that
    comes out with value 0 has its value field equal to 0 and its other
    fields as they were. *)
Theorem sticky_unlocked_event (config : axis_constrain_config)
  (data : axis_constrain_data) (event : input_event) :
  sticky config = true ->
  locked_axis data = AXIS_NONE ->
  qualifying event = true ->
  let data2 :=
    k_work_reschedule (update_accum data (is_x_of event) (ev_value event))
                      (release_after_ms config) in
  let dominant := determine_dominant_axis data2 (threshold config) in
  handle_sticky_mode_calls data2 config event (is_x_of event)
  = (handle_sticky_mode data2 config event (is_x_of event),
     [(data2, threshold config)])
  /\ handle_event config data event
     = (0, fst (handle_sticky_mode data2 config event (is_x_of event)),
           snd (handle_sticky_mode data2 config event (is_x_of event)))
  /\ fst (handle_sticky_mode data2 config event (is_x_of event))
     = set_locked_axis data2 dominant
  /\ (dominant = AXIS_NONE ->
      snd (handle_sticky_mode data2 config event (is_x_of event))
      = set_value event 0)
  /\ (dominant = axis_of (is_x_of event) ->
      snd (handle_sticky_mode data2 config event (is_x_of event)) = event)
  /\ (dominant = other_axis (axis_of (is_x_of event)) ->
      snd (handle_sticky_mode data2 config event (is_x_of event))
      = set_value event 0)
  /\ axis_constrain_handle_event_calls INPUT_EV_REL INPUT_REL_X INPUT_REL_Y
       config data event
     = (handle_event config data event, [(data2, threshold config)])
  /\ axis_constrain_handle_event_in INPUT_EV_REL INPUT_REL_X INPUT_REL_Y
       direct direct_ret direct_bind determine_dominant_axis config data event
     = handle_event config data event
  /\ locked_axis (snd (fst (handle_event config data event))) = dominant
  /\ (dominant = axis_of (is_x_of event) ->
      snd (handle_event config data event) = event)
  /\ (dominant <> axis_of (is_x_of event) ->
      ev_value (snd (handle_event config data event)) = 0
      /\ ev_dev (snd (handle_event config data event)) = ev_dev event
      /\ ev_sync (snd (handle_event config data event)) = ev_sync event
      /\ ev_type (snd (handle_event config data event)) = ev_type event
      /\ ev_code (snd (handle_event config data event)) = ev_code event).
Proof.
  intros Hs Hl Hq data2 dominant.
  assert (Hl2 : locked_axis data2 = AXIS_NONE)
    by (unfold data2; destruct (is_x_of event); exact Hl).
  assert (Hlog : handle_sticky_mode_calls data2 config event (is_x_of event)
                 = (handle_sticky_mode data2 config event (is_x_of event),
                    [(data2, threshold config)]))
    by (rewrite handle_sticky_mode_calls_log, Hl2; reflexivity).
  assert (Hev : handle_event config data event
                = (0, fst (handle_sticky_mode data2 config event
                             (is_x_of event)),
                      snd (handle_sticky_mode data2 config event
                             (is_x_of event))))
    by (rewrite handle_event_qualifying by exact Hq; cbv zeta; rewrite Hs;
        reflexivity).
  split; [exact Hlog | split; [exact Hev |]].
  assert (Hcalls : axis_constrain_handle_event_calls
                     INPUT_EV_REL INPUT_REL_X INPUT_REL_Y config data event
                   = (handle_event config data event,
                      [(data2, threshold config)])).
  { rewrite (handle_event_calls_sticky config data event Hs Hq).
    fold data2; rewrite Hlog; reflexivity. }
  rewrite Hcalls, handle_event_in_direct, Hev; cbn [fst snd].
  rewrite handle_sticky_mode_unlocked by exact Hl2; cbn [fst snd].
  fold dominant; cbn [set_locked_axis locked_axis].
  split; [reflexivity |].
  destruct dominant, (is_x_of event); cbn;
    repeat split; intros; try reflexivity; try discriminate; congruence.
Qed.

(** *** Non-sticky mode *)

Lemma handle_non_sticky_mode_suppress (data : axis_constrain_data)
  (config : axis_constrain_config) (event : input_event) (is_x : bool) :
  determine_dominant_axis data (threshold config) <> axis_of is_x ->
  handle_non_sticky_mode data config event is_x = (data, set_value event 0).
Proof.
  unfold handle_non_sticky_mode; intros H.
  destruct (determine_dominant_axis data (threshold config)), is_x;
    cbn in *; congruence.
Qed.

(** C6.  In non-sticky mode, a qualifying event whose axis is not the one the
    arbiter answers (the other axis, or NONE) comes out with value 0, and
    the instance data is exactly the data after the event's delta was
    accumulated: nothing is zeroed, clamped or decayed. *)
Theorem non_sticky_suppress_keeps_accum (config : axis_constrain_config)
  (data : axis_constrain_data) (event : input_event) :
  sticky config = false ->
  qualifying event = true ->
  determine_dominant_axis
    (update_accum data (is_x_of event) (ev_value event)) (threshold config)
  <> axis_of (is_x_of event) ->
  handle_event config data event
  = (0, update_accum data (is_x_of event) (ev_value event), set_value event 0).
Proof.
  intros Hs Hq Hdom.
  rewrite handle_event_qualifying by exact Hq; cbv zeta; rewrite Hs.
  now rewrite handle_non_sticky_mode_suppress by exact Hdom.
Qed.

(** The accepting branch, on data that satisfies the accumulator invariant on
    the dominant axis. *)
Lemma handle_non_sticky_mode_accept (data : axis_constrain_data)
  (config : axis_constrain_config) (event : input_event) (is_x : bool) :
  valid_threshold config ->
  axis_inv (accum_of (axis_of is_x) data) (abs_accum_of (axis_of is_x) data) ->
  determine_dominant_axis data (threshold config) = axis_of is_x ->
  let data' := fst (handle_non_sticky_mode data config event is_x) in
  snd (handle_non_sticky_mode data config event is_x) = event
  /\ accum_of (other_axis (axis_of is_x)) data' = 0
  /\ abs_accum_of (other_axis (axis_of is_x)) data' = 0
  /\ (threshold config < Z.abs (accum_of (axis_of is_x) data) ->
      accum_of (axis_of is_x) data'
      = Z.sgn (accum_of (axis_of is_x) data) * threshold config)
  /\ (Z.abs (accum_of (axis_of is_x) data) <= threshold config ->
      accum_of (axis_of is_x) data' = accum_of (axis_of is_x) data)
  /\ abs_accum_of (axis_of is_x) data' = Z.abs (accum_of (axis_of is_x) data')
  /\ Z.abs (accum_of (axis_of is_x) data') <= threshold config
  /\ locked_axis data' = locked_axis data
  /\ release_work data' = release_work data.
Proof.
  intros Hth [Hb Habs] Hdom.
  rewrite safe_abs_bounded in Habs by exact Hb.
  assert (Hge : threshold config <= abs_accum_of (axis_of is_x) data).
  { revert Hdom; unfold determine_dominant_axis.
    destruct is_x; cbn [axis_of abs_accum_of]; split_cmp; cbn;
      congruence || lia. }
  unfold handle_non_sticky_mode; rewrite Hdom.
  pose proof (neg_int_small _ Hth) as Hneg.
  destruct Hth as [Hpos _].
  destruct is_x; cbn [axis_of other_axis accum_of abs_accum_of] in *;
    cbn [axis_state_eqb on_axis andb orb negb];
    split_cmp;
    cbn [fst snd accum_of abs_accum_of accum_x accum_y abs_accum_x abs_accum_y
         locked_axis release_work];
    rewrite ?Hneg; repeat split; intros; try lia.
Qed.

Lemma axis_inv_after_update (data : axis_constrain_data) (is_x : bool) (delta : Z) :
  axis_inv (accum_of (axis_of is_x) (update_accum data is_x delta))
           (abs_accum_of (axis_of is_x) (update_accum data is_x delta)).
Proof. destruct is_x; apply axis_inv_update. Qed.

(** C3.  In non-sticky mode with a valid threshold, take a qualifying event
    whose axis is the one the arbiter answers once the event's delta is
    accumulated.  The event comes out as it went in.  Afterwards the other
    axis has accumulator 0 and absolute accumulator 0; the dominant
    accumulator is the threshold with the sign it had when its magnitude
    exceeded the threshold, and is what it was otherwise; its absolute
    accumulator is its magnitude, and that magnitude is at most the
    threshold.  The lock and the release timer are as they were. *)
Theorem non_sticky_accept_decays (config : axis_constrain_config)
  (data : axis_constrain_data) (event : input_event) :
  sticky config = false ->
  valid_threshold config ->
  qualifying event = true ->
  let a := axis_of (is_x_of event) in
  let data1 := update_accum data (is_x_of event) (ev_value event) in
  determine_dominant_axis data1 (threshold config) = a ->
  let data' := snd (fst (handle_event config data event)) in
  fst (fst (handle_event config data event)) = 0
  /\ snd (handle_event config data event) = event
  /\ accum_of (other_axis a) data' = 0
  /\ abs_accum_of (other_axis a) data' = 0
  /\ (threshold config < Z.abs (accum_of a data1) ->
      accum_of a data' = Z.sgn (accum_of a data1) * threshold config)
  /\ (Z.abs (accum_of a data1) <= threshold config ->
      accum_of a data' = accum_of a data1)
  /\ abs_accum_of a data' = Z.abs (accum_of a data')
  /\ Z.abs (accum_of a data') <= threshold config
  /\ locked_axis data' = locked_axis data
  /\ release_work data' = release_work data.
Proof.
  intros Hs Hth Hq a data1 Hdom.
  rewrite handle_event_qualifying by exact Hq; cbv zeta; rewrite Hs.
  cbn [fst snd]; fold data1.
  split; [reflexivity |].
  pose proof (handle_non_sticky_mode_accept data1 config event (is_x_of event)
                Hth (axis_inv_after_update _ _ _) Hdom) as H.
  cbv zeta in H; fold a in H.
  replace (locked_axis data) with (locked_axis data1)
    by (unfold data1; destruct (is_x_of event); reflexivity).
  replace (release_work data) with (release_work data1)
    by (unfold data1; destruct (is_x_of event); reflexivity).
  exact H.
Qed.

(** *** The accumulator invariant *)

Lemma accum_inv_non_sticky (data : axis_constrain_data)
  (config : axis_constrain_config) (event : input_event) (is_x : bool) :
  valid_threshold config ->
  accum_inv data ->
  accum_inv (fst (handle_non_sticky_mode data config event is_x)).
Proof.
  intros Hth [Hx Hy]; unfold handle_non_sticky_mode.
  destruct (axis_state_eqb _ AXIS_NONE); [split; assumption |].
  destruct (negb _); [split; assumption |].
  destruct (axis_state_eqb _ AXIS_X).
  - destruct (abs_accum_x data >? threshold config) eqn:E; cbn [fst];
      split; cbn [accum_x accum_y abs_accum_x abs_accum_y];
      try apply axis_inv_zero; try assumption.
    apply axis_inv_decay with (abs_accum := abs_accum_x data);
      [exact Hth | exact Hx | lia].
  - destruct (abs_accum_y data >? threshold config) eqn:E; cbn [fst];
      split; cbn [accum_x accum_y abs_accum_x abs_accum_y];
      try apply axis_inv_zero; try assumption.
    apply axis_inv_decay with (abs_accum := abs_accum_y data);
      [exact Hth | exact Hy | lia].
Qed.

Lemma accum_inv_sticky (data : axis_constrain_data)
  (config : axis_constrain_config) (event : input_event) (is_x : bool) :
  accum_inv data ->
  accum_inv (fst (handle_sticky_mode data config event is_x)).
Proof.
  intros H; unfold handle_sticky_mode.
  destruct (axis_state_eqb (locked_axis data) AXIS_NONE).
  - destruct (axis_state_eqb _ AXIS_NONE); [exact H |].
    destruct (negb _); exact H.
  - destruct (axis_state_eqb _ AXIS_NONE); [exact H |].
    destruct (negb _); exact H.
Qed.

Lemma accum_inv_handle_event (config : axis_constrain_config)
  (data : axis_constrain_data) (event : input_event) :
  valid_threshold config ->
  accum_inv data ->
  accum_inv (snd (fst (handle_event config data event))).
Proof.
  intros Hth Hinv.
  destruct (qualifying event) eqn:Hq.
  - rewrite handle_event_qualifying by exact Hq; cbv zeta.
    destruct (sticky config); cbn [fst snd].
    + apply accum_inv_sticky.
      exact (accum_inv_update_accum data _ _ Hinv).
    + apply accum_inv_non_sticky; [exact Hth |].
      apply accum_inv_update_accum, Hinv.
  - rewrite handle_event_irrelevant by exact Hq; exact Hinv.
Qed.

Lemma accum_inv_step (config : axis_constrain_config)
  (data : axis_constrain_data)
  (s : stimulus) :
  valid_threshold config ->
  accum_inv data ->
  accum_inv (step INPUT_EV_REL INPUT_REL_X INPUT_REL_Y config data s).
Proof.
  intros Hth Hinv; destruct s as [event |]; cbn [step].
  - apply accum_inv_handle_event; assumption.
  - destruct (release_work data); [apply accum_inv_reset | exact Hinv].
Qed.

(** C4.  With a valid threshold: the initial state satisfies the accumulator
    invariant (each accumulator within [MAX_ACCUM] in magnitude, each
    absolute accumulator the saturating absolute value of its accumulator);
    an accumulator update by any delta, [INT32_MIN] included, establishes
    it on the updated axis and keeps it on the other; every event handled,
    in either mode, and every release keeps it; so it holds after every
    sequence of events and releases from the initial state, where the
    absolute accumulators are moreover the plain magnitudes. *)
Theorem accum_inv_always (config : axis_constrain_config) :
  valid_threshold config ->
  accum_inv initial_data
  /\ (forall (data : axis_constrain_data) (is_x : bool) (delta : Z),
         axis_inv (accum_of (axis_of is_x) (update_accum data is_x delta))
                  (abs_accum_of (axis_of is_x) (update_accum data is_x delta))
         /\ (accum_inv data -> accum_inv (update_accum data is_x delta)))
  /\ (forall (data : axis_constrain_data) (s : stimulus),
         accum_inv data ->
         accum_inv (step INPUT_EV_REL INPUT_REL_X INPUT_REL_Y config data s))
  /\ (forall data : axis_constrain_data,
         accum_inv (release_work_handler data))
  /\ (forall l : list stimulus,
         let data := exec INPUT_EV_REL INPUT_REL_X INPUT_REL_Y
                          config initial_data l in
         accum_inv data
         /\ abs_accum_x data = Z.abs (accum_x data)
         /\ abs_accum_y data = Z.abs (accum_y data)).
Proof.
  intros Hth.
  assert (Hinit : accum_inv initial_data) by (split; apply axis_inv_zero).
  split; [exact Hinit |].
  split; [intros; split;
          [apply axis_inv_after_update | apply accum_inv_update_accum] |].
  split; [intros; apply accum_inv_step; assumption |].
  split; [intros; apply accum_inv_reset |].
  intros l.
  assert (H : forall data, accum_inv data ->
                accum_inv (exec INPUT_EV_REL INPUT_REL_X INPUT_REL_Y
                                config data l)).
  { unfold exec; induction l as [| s l IH]; intros data Hd; [exact Hd |].
    cbn [fold_left]; apply IH, accum_inv_step; assumption. }
  specialize (H _ Hinit); cbv zeta.
  split; [exact H |].
  destruct H as [[Hbx Hx] [Hby Hy]].
  rewrite Hx, Hy; split; apply safe_abs_bounded; assumption.
Qed.

(** *** What an event can become *)

(** C10.  In either mode and from any state, handling an event returns
    status 0 and gives back either the event as it was or the event with
    its value replaced by 0: device, sync flag, type and code are never
    changed, and the value is the original one or 0. *)
Theorem handle_event_value_or_zero (config : axis_constrain_config)
  (data : axis_constrain_data) (event : input_event) :
  let event' := snd (handle_event config data event) in
  fst (fst (handle_event config data event)) = 0
  /\ (event' = event \/ event' = set_value event 0)
  /\ ev_dev event' = ev_dev event
  /\ ev_sync event' = ev_sync event
  /\ ev_type event' = ev_type event
  /\ ev_code event' = ev_code event
  /\ (ev_value event' = ev_value event \/ ev_value event' = 0).
Proof.
  cbv zeta.
  assert (H : fst (fst (handle_event config data event)) = 0
              /\ (snd (handle_event config data event) = event
                  \/ snd (handle_event config data event) = set_value event 0)).
  { destruct (qualifying event) eqn:Hq.
    - rewrite handle_event_qualifying by exact Hq; cbv zeta.
      destruct (sticky config); cbn [fst snd]; (split; [reflexivity |]).
      + unfold handle_sticky_mode.
        destruct (axis_state_eqb (locked_axis _) AXIS_NONE);
          destruct (axis_state_eqb _ AXIS_NONE); cbn [snd]; auto;
          destruct (negb _); cbn [snd]; auto.
      + unfold handle_non_sticky_mode.
        destruct (axis_state_eqb _ AXIS_NONE); cbn [snd]; auto.
        destruct (negb _); cbn [snd]; auto.
        destruct (axis_state_eqb _ AXIS_X);
          match goal with |- context [if ?b then _ else _] => destruct b end;
          cbn [snd]; auto.
    - rewrite handle_event_irrelevant by exact Hq; cbn [fst snd]; auto. }
  destruct H as [H0 [H | H]]; rewrite H; cbn; auto 10.
Qed.

End Handling.

(** * Worked examples *)

(** Sticky mode, threshold 10: two X movements of 6 lock X on the second,
    and a Y movement of 20 that follows comes out as 0. *)
Example sticky_two_steps_lock_x :
  process EV_REL REL_X REL_Y sticky_10 initial_data [rel_x 6; rel_x 6; rel_y 20]
  = (mk_data AXIS_X 12 20 12 20 (Some 150), [rel_x 0; rel_x 6; rel_y 0]).
Proof. reflexivity. Qed.

(** Non-sticky mode, threshold 5: the first X movement of 3 is suppressed,
    the second passes and the X accumulator is clamped to 5. *)
Example non_sticky_second_step_passes :
  process EV_REL REL_X REL_Y loose_5 initial_data [rel_x 3; rel_x 3]
  = (mk_data AXIS_NONE 5 0 5 0 None, [rel_x 0; rel_x 3]).
Proof. reflexivity. Qed.

(** Sticky mode, threshold 5: X locks, the release fires, then Y locks. *)
Example sticky_release_then_lock_y :
  exec EV_REL REL_X REL_Y sticky_5 initial_data
       [Motion (rel_x 6); Timer; Motion (rel_y 6)]
  = mk_data AXIS_Y 0 6 0 6 (Some 100).
Proof. reflexivity. Qed.

(** Non-sticky mode, threshold 5: sustained X movement keeps the X
    accumulator at 5, and Y takes over as soon as it exceeds it. *)
Example non_sticky_sustained_then_switch :
  process EV_REL REL_X REL_Y loose_5 initial_data
          [rel_x 50; rel_x 50; rel_x 50; rel_y 6]
  = (mk_data AXIS_NONE 0 5 0 5 None, [rel_x 50; rel_x 50; rel_x 50; rel_y 6]).
Proof. reflexivity. Qed.

(** The most negative delta saturates the accumulator. *)
Example update_accum_int32_min :
  update_accum initial_data true INT32_MIN
  = mk_data AXIS_NONE (- MAX_ACCUM) 0 MAX_ACCUM 0 None.
Proof. reflexivity. Qed.

(** * Instances of the theorems *)

Lemma determine_dominant_axis_cases_witness :
  determine_dominant_axis (locked_on AXIS_NONE 12 0) 10 = AXIS_X
  /\ determine_dominant_axis (locked_on AXIS_NONE 3 (-12)) 10 = AXIS_Y
  /\ determine_dominant_axis (locked_on AXIS_NONE 10 (-10)) 10 = AXIS_X
  /\ determine_dominant_axis (locked_on AXIS_NONE 4 20) 21 = AXIS_NONE
  /\ determine_dominant_axis (locked_on AXIS_X 3 (-12)) 10
     = determine_dominant_axis (locked_on AXIS_NONE (-3) 12) 10.
Proof.
  split; [| split; [| split; [| split]]].
  - destruct (determine_dominant_axis_cases (locked_on AXIS_NONE 12 0) 10)
      as (_ & HX & _).
    apply HX; cbn; lia.
  - destruct (determine_dominant_axis_cases (locked_on AXIS_NONE 3 (-12)) 10)
      as (_ & _ & HY & _).
    apply HY; cbn; lia.
  - destruct (determine_dominant_axis_cases (locked_on AXIS_NONE 10 (-10)) 10)
      as (_ & _ & _ & Htie & _).
    apply Htie; cbn; lia.
  - destruct (determine_dominant_axis_cases (locked_on AXIS_NONE 4 20) 21)
      as (_ & _ & _ & _ & Hnone).
    apply Hnone; cbn; lia.
  - destruct (determine_dominant_axis_cases (locked_on AXIS_NONE (-3) 12) 10)
      as (Hpure & _).
    apply Hpure; reflexivity.
Defined.

Lemma construct_validates_witness :
  (exists msg : string, construct (mk_props 0 false 100) = inl msg)
  /\ (exists msg : string, construct (mk_props 10 true 0) = inl msg)
  /\ construct (mk_props 10 true 150) = inr (sticky_10, initial_data)
  /\ construct (mk_props 5 false 0) = inr (mk_config 5 false 0, initial_data).
Proof.
  split; [| split; [| split]].
  - apply (construct_validates (mk_props 0 false 100)); left; cbn; lia.
  - apply (construct_validates (mk_props 10 true 0)); right; cbn.
    split; [reflexivity | lia].
  - apply (construct_validates (mk_props 10 true 150)); cbn; intros; lia.
  - apply (construct_validates (mk_props 5 false 0)); cbn;
      [lia | discriminate].
Defined.

Lemma irrelevant_events_pass_witness :
  axis_constrain_handle_event EV_REL REL_X REL_Y sticky_10
    (locked_on AXIS_X 12 0) key_press
  = (0, locked_on AXIS_X 12 0, key_press)
  /\ process EV_REL REL_X REL_Y sticky_10 (locked_on AXIS_X 12 0)
       [key_press; wheel 3; key_press]
     = (locked_on AXIS_X 12 0, [key_press; wheel 3; key_press]).
Proof.
  split.
  - apply (irrelevant_events_pass EV_REL REL_X REL_Y sticky_10
             (locked_on AXIS_X 12 0)).
    left; cbn; discriminate.
  - apply (irrelevant_events_pass EV_REL REL_X REL_Y sticky_10
             (locked_on AXIS_X 12 0)).
    repeat constructor; cbn; discriminate.
Defined.

Lemma sticky_lock_persists_witness :
  sticky sticky_10 = true
  /\ AXIS_X <> AXIS_NONE
  /\ locked_axis (locked_on AXIS_X 12 0) = AXIS_X
  /\ locked_axis
       (fst (process EV_REL REL_X REL_Y sticky_10 (locked_on AXIS_X 12 0)
               [rel_y 20; rel_x (-30); key_press; rel_y 40; rel_x 1]))
     = AXIS_X
  /\ snd (process EV_REL REL_X REL_Y sticky_10 (locked_on AXIS_X 12 0)
            [rel_y 20; rel_x (-30); key_press; rel_y 40; rel_x 1])
     = [rel_y 0; rel_x (-30); key_press; rel_y 0; rel_x 1].
Proof.
  split; [reflexivity | split; [discriminate | split; [reflexivity |]]].
  destruct (sticky_lock_persists EV_REL REL_X REL_Y sticky_10 AXIS_X
              [rel_y 20; rel_x (-30); key_press; rel_y 40; rel_x 1]
              (locked_on AXIS_X 12 0))
    as (Hlock & _ & _);
    [reflexivity | discriminate | reflexivity |].
  split; [exact Hlock | reflexivity].
Defined.

Lemma sticky_unlocked_event_witness :
  sticky sticky_10 = true
  /\ locked_axis (mk_data AXIS_NONE 6 0 6 0 (Some 150)) = AXIS_NONE
  /\ qualifies EV_REL REL_X REL_Y (rel_x 6) = true
  /\ handle_sticky_mode_calls (mk_data AXIS_NONE 12 0 12 0 (Some 150))
       sticky_10 (rel_x 6) true
     = (mk_data AXIS_X 12 0 12 0 (Some 150), rel_x 6,
        [(mk_data AXIS_NONE 12 0 12 0 (Some 150), 10)])
  /\ axis_constrain_handle_event EV_REL REL_X REL_Y sticky_10
       (mk_data AXIS_NONE 6 0 6 0 (Some 150)) (rel_x 6)
     = (0, mk_data AXIS_X 12 0 12 0 (Some 150), rel_x 6)
  /\ axis_constrain_handle_event EV_REL REL_X REL_Y sticky_10
       (mk_data AXIS_NONE 0 0 0 0 None) (rel_x 6)
     = (0, mk_data AXIS_NONE 6 0 6 0 (Some 150), rel_x 0)
  /\ ev_value
       (snd (axis_constrain_handle_event EV_REL REL_X REL_Y sticky_10
               (mk_data AXIS_NONE 0 0 0 0 None) (rel_x 6)))
     = 0
  /\ axis_constrain_handle_event_calls EV_REL REL_X REL_Y sticky_10
       (mk_data AXIS_NONE 0 0 0 0 None) (rel_x 6)
     = (0, mk_data AXIS_NONE 6 0 6 0 (Some 150), rel_x 0,
        [(mk_data AXIS_NONE 6 0 6 0 (Some 150), 10)])
  /\ axis_constrain_handle_event EV_REL REL_X REL_Y sticky_10
       (mk_data AXIS_NONE 0 12 0 12 None) (rel_x 7)
     = (0, mk_data AXIS_Y 7 12 7 12 (Some 150), rel_x 0)
  /\ ev_value
       (snd (axis_constrain_handle_event EV_REL REL_X REL_Y sticky_10
               (mk_data AXIS_NONE 0 12 0 12 None) (rel_x 7)))
     = 0.
Proof.
  split; [reflexivity | split; [reflexivity | split; [reflexivity |]]].
  destruct (sticky_unlocked_event EV_REL REL_X REL_Y sticky_10
              (mk_data AXIS_NONE 6 0 6 0 (Some 150)) (rel_x 6))
    as (Hcalls & Hev & _); [reflexivity | reflexivity | reflexivity |].
  split; [exact Hcalls | split; [exact Hev |]].
  destruct (sticky_unlocked_event EV_REL REL_X REL_Y sticky_10
              (mk_data AXIS_NONE 0 0 0 0 None) (rel_x 6))
    as (_ & Hev0 & Hfst0 & Hnone0 & _ & _ & Hlog0 & _ & _ & _ & Hzero0);
    [reflexivity | reflexivity | reflexivity |].
  split; [rewrite Hev0, Hfst0, (Hnone0 eq_refl); reflexivity |].
  split; [apply Hzero0; discriminate |].
  split; [rewrite Hlog0, Hev0, Hfst0, (Hnone0 eq_refl); reflexivity |].
  destruct (sticky_unlocked_event EV_REL REL_X REL_Y sticky_10
              (mk_data AXIS_NONE 0 12 0 12 None) (rel_x 7))
    as (_ & Hev1 & Hfst1 & _ & _ & Hother1 & _ & _ & _ & _ & Hzero1);
    [reflexivity | reflexivity | reflexivity |].
  split; [rewrite Hev1, Hfst1, (Hother1 eq_refl); reflexivity |].
  apply Hzero1; discriminate.
Defined.

Lemma non_sticky_suppress_keeps_accum_witness :
  sticky loose_5 = false
  /\ qualifies EV_REL REL_X REL_Y (rel_y 3) = true
  /\ determine_dominant_axis
       (update_accum (mk_data AXIS_NONE 5 0 5 0 None) false 3) 5
     <> AXIS_Y
  /\ axis_constrain_handle_event EV_REL REL_X REL_Y loose_5
       (mk_data AXIS_NONE 5 0 5 0 None) (rel_y 3)
     = (0, mk_data AXIS_NONE 5 3 5 3 None, rel_y 0).
Proof.
  split; [reflexivity | split; [reflexivity | split; [discriminate |]]].
  apply (non_sticky_suppress_keeps_accum EV_REL REL_X REL_Y loose_5
           (mk_data AXIS_NONE 5 0 5 0 None) (rel_y 3));
    [reflexivity | reflexivity | discriminate].
Defined.

Lemma non_sticky_accept_decays_witness :
  sticky loose_5 = false
  /\ valid_threshold loose_5
  /\ qualifies EV_REL REL_X REL_Y (rel_x (-50)) = true
  /\ determine_dominant_axis
       (update_accum (mk_data AXIS_NONE 3 4 3 4 None) true (-50)) 5
     = AXIS_X
  /\ snd (axis_constrain_handle_event EV_REL REL_X REL_Y loose_5
            (mk_data AXIS_NONE 3 4 3 4 None) (rel_x (-50)))
     = rel_x (-50)
  /\ accum_y (snd (fst (axis_constrain_handle_event EV_REL REL_X REL_Y loose_5
                          (mk_data AXIS_NONE 3 4 3 4 None) (rel_x (-50)))))
     = 0
  /\ accum_x (snd (fst (axis_constrain_handle_event EV_REL REL_X REL_Y loose_5
                          (mk_data AXIS_NONE 3 4 3 4 None) (rel_x (-50)))))
     = -1 * 5.
Proof.
  assert (Hth : valid_threshold loose_5) by (unfold valid_threshold; int_consts; cbn; lia).
  split; [reflexivity | split; [exact Hth | split; [reflexivity |]]].
  split; [reflexivity |].
  destruct (non_sticky_accept_decays EV_REL REL_X REL_Y loose_5
              (mk_data AXIS_NONE 3 4 3 4 None) (rel_x (-50)))
    as (_ & Hev & Hother & _ & Hclamp & _);
    [reflexivity | exact Hth | reflexivity | reflexivity |].
  split; [exact Hev | split; [exact Hother |]].
  apply Hclamp; cbn; lia.
Defined.

Lemma accum_inv_always_witness :
  valid_threshold loose_5
  /\ accum_inv
       (exec EV_REL REL_X REL_Y loose_5 initial_data
          [Motion (rel_x INT32_MIN); Motion (rel_x INT32_MIN);
           Motion (rel_y 7); Timer; Motion (rel_x 50); Motion key_press])
  /\ axis_inv (accum_x (update_accum initial_data true INT32_MIN))
              (abs_accum_x (update_accum initial_data true INT32_MIN)).
Proof.
  assert (Hth : valid_threshold loose_5) by (unfold valid_threshold; int_consts; cbn; lia).
  split; [exact Hth |].
  destruct (accum_inv_always EV_REL REL_X REL_Y loose_5 Hth)
    as (_ & Hupd & _ & _ & Hexec).
  split.
  - exact (proj1 (Hexec [Motion (rel_x INT32_MIN); Motion (rel_x INT32_MIN);
                         Motion (rel_y 7); Timer; Motion (rel_x 50);
                         Motion key_press])).
  - exact (proj1 (Hupd initial_data true INT32_MIN)).
Defined.

(** * Further properties of the accumulator and the arbiter *)

(** X1.  On [int32_t] operands the 64-bit sum in [safe_accum_add] is exact,
    and the result is that sum clamped to [-MAX_ACCUM .. MAX_ACCUM]: the sum
    itself when it lies in the range, the nearer bound when it does not.
    The result is an [int32_t], and so is the sum of any two results. *)
Theorem safe_accum_add_saturates (current delta : Z) :
  int32_range current ->
  int32_range delta ->
  to_int64 (current + delta) = current + delta
  /\ safe_accum_add current delta
     = Z.max (- MAX_ACCUM) (Z.min MAX_ACCUM (current + delta))
  /\ (Z.abs (current + delta) <= MAX_ACCUM ->
      safe_accum_add current delta = current + delta)
  /\ (MAX_ACCUM < current + delta -> safe_accum_add current delta = MAX_ACCUM)
  /\ (current + delta < - MAX_ACCUM ->
      safe_accum_add current delta = - MAX_ACCUM)
  /\ (forall other : Z,
         Z.abs other <= MAX_ACCUM ->
         int32_range (safe_accum_add current delta + other)).
Proof.
  intros Hc Hd.
  pose proof (safe_accum_add_clamp current delta Hc Hd) as Hclamp.
  pose proof (safe_accum_add_bound current delta) as Hb.
  split; [| split; [exact Hclamp |]].
  - apply to_int64_small; revert Hc Hd; unfold int32_range; int_consts; lia.
  - rewrite Hclamp; revert Hb; rewrite Hclamp.
    unfold int32_range; int_consts; intros Hb.
    repeat split; intros; lia.
Qed.

(** X2.  For an [int32_t] value, [safe_abs] is never negative and never above
    [INT32_MAX]; it is the magnitude of the value, except at [INT32_MIN],
    where it is [INT32_MAX], one less than the magnitude; and it is zero
    only at zero. *)
Theorem safe_abs_int32 (value : Z) :
  int32_range value ->
  0 <= safe_abs value <= INT32_MAX
  /\ (value <> INT32_MIN -> safe_abs value = Z.abs value)
  /\ (value = INT32_MIN -> safe_abs value = Z.abs value - 1)
  /\ (safe_abs value = 0 <-> value = 0).
Proof.
  unfold int32_range, safe_abs; int_consts; intros Hv.
  split_cmp; repeat split; intros; lia.
Qed.

(** X3.  Accumulator updates on different axes commute, and an update leaves
    the other axis, the lock and the release work item as they were. *)
Theorem update_accum_axes_commute (data : axis_constrain_data) (dx dy : Z) :
  update_accum (update_accum data true dx) false dy
  = update_accum (update_accum data false dy) true dx
  /\ (forall (is_x : bool) (delta : Z),
         accum_of (other_axis (axis_of is_x)) (update_accum data is_x delta)
         = accum_of (other_axis (axis_of is_x)) data
         /\ abs_accum_of (other_axis (axis_of is_x)) (update_accum data is_x delta)
            = abs_accum_of (other_axis (axis_of is_x)) data
         /\ locked_axis (update_accum data is_x delta) = locked_axis data
         /\ release_work (update_accum data is_x delta) = release_work data).
Proof.
  split; [reflexivity |].
  intros [] delta; repeat split.
Qed.

Lemma safe_accum_add_undo (current delta : Z) :
  Z.abs current <= MAX_ACCUM ->
  Z.abs (current + delta) <= MAX_ACCUM ->
  safe_accum_add (safe_accum_add current delta) (- delta) = current.
Proof.
  intros Hc Hs.
  assert (H1 : safe_accum_add current delta = current + delta).
  { rewrite safe_accum_add_clamp;
      revert Hc Hs; unfold int32_range; int_consts; lia. }
  rewrite H1, safe_accum_add_clamp;
    revert Hc Hs; unfold int32_range; int_consts; lia.
Qed.

(** X4.  As long as the accumulator does not saturate, a movement and the
    opposite movement cancel: on data that satisfies the accumulator
    invariant, accumulating [delta] and then [- delta] on an axis gives the
    data back, absolute accumulators included. *)
Theorem update_accum_undo (data : axis_constrain_data) (is_x : bool) (delta : Z) :
  accum_inv data ->
  Z.abs (accum_of (axis_of is_x) data + delta) <= MAX_ACCUM ->
  update_accum (update_accum data is_x delta) is_x (- delta) = data.
Proof.
  intros [[Hbx Hx] [Hby Hy]] Hs; destruct data as [l ax ay bx by_ w].
  cbn [accum_x accum_y abs_accum_x abs_accum_y] in *.
  destruct is_x; cbn [axis_of accum_of accum_x accum_y] in Hs;
    unfold update_accum;
    cbn [accum_x accum_y abs_accum_x abs_accum_y locked_axis release_work];
    rewrite safe_accum_add_undo by assumption; congruence.
Qed.

(** X5.  What each answer of the arbiter means: NONE exactly when both
    magnitudes are below the threshold; X exactly when the X magnitude has
    reached the threshold and is at least the Y magnitude; Y exactly when
    the Y magnitude has reached the threshold and is strictly above the X
    magnitude. *)
Theorem determine_dominant_axis_iff (data : axis_constrain_data) (th : Z) :
  (determine_dominant_axis data th = AXIS_NONE
   <-> abs_accum_x data < th /\ abs_accum_y data < th)
  /\ (determine_dominant_axis data th = AXIS_X
      <-> th <= abs_accum_x data /\ abs_accum_y data <= abs_accum_x data)
  /\ (determine_dominant_axis data th = AXIS_Y
      <-> th <= abs_accum_y data /\ abs_accum_x data < abs_accum_y data).
Proof.
  unfold determine_dominant_axis; split_cmp; cbn;
    repeat split; intros; try discriminate; try lia;
    try reflexivity; exfalso; lia.
Qed.

(** X6.  The threshold only gates the answer, it never changes the axis: if
    the arbiter answers an axis at some threshold, it answers the same axis
    at every lower threshold, and at a higher threshold it answers the same
    axis or NONE. *)
Theorem determine_dominant_axis_threshold (data : axis_constrain_data)
  (th th' : Z) :
  th' <= th ->
  (determine_dominant_axis data th <> AXIS_NONE ->
   determine_dominant_axis data th' = determine_dominant_axis data th)
  /\ (determine_dominant_axis data th = determine_dominant_axis data th'
      \/ determine_dominant_axis data th = AXIS_NONE).
Proof.
  intros Hle; unfold determine_dominant_axis; split_cmp; cbn;
    split; intros; try congruence; try lia; auto.
Qed.

(** * Further properties of the two policies *)

Section Policies.

Variables INPUT_EV_REL INPUT_REL_X INPUT_REL_Y : Z.

Local Abbreviation handle_event :=
  (axis_constrain_handle_event INPUT_EV_REL INPUT_REL_X INPUT_REL_Y).
Local Abbreviation qualifying := (qualifies INPUT_EV_REL INPUT_REL_X INPUT_REL_Y).
Local Abbreviation advance := (step INPUT_EV_REL INPUT_REL_X INPUT_REL_Y).
Local Abbreviation history := (exec INPUT_EV_REL INPUT_REL_X INPUT_REL_Y).
Local Abbreviation is_x_of event := (ev_code event =? INPUT_REL_X).

Lemma determine_dominant_axis_reached (data : axis_constrain_data) (th : Z) :
  determine_dominant_axis data th <> AXIS_NONE ->
  th <= abs_accum_of (determine_dominant_axis data th) data.
Proof.
  unfold determine_dominant_axis; split_cmp; cbn; intros; congruence || lia.
Qed.

Lemma exec_invariant (P : axis_constrain_data -> Prop)
  (config : axis_constrain_config) :
  (forall data s, P data -> P (advance config data s)) ->
  forall (l : list stimulus) (data : axis_constrain_data),
    P data -> P (history config data l).
Proof.
  intros Hstep; unfold exec; induction l as [| s l IH]; intros data Hd;
    [exact Hd | cbn [fold_left]; apply IH, Hstep, Hd].
Qed.

(** *** Sticky mode *)

Lemma unlocked_below_step (config : axis_constrain_config)
  (data : axis_constrain_data) (s : stimulus) :
  sticky config = true ->
  0 < threshold config ->
  unlocked_below (threshold config) data ->
  unlocked_below (threshold config) (advance config data s).
Proof.
  intros Hs Hth Hinv; destruct s as [event |]; cbn [step].
  - destruct (qualifying event) eqn:Hq.
    + rewrite (handle_event_qualifying _ _ _ _ _ _ Hq); cbv zeta; rewrite Hs.
      cbn [fst snd].
      set (data2 := k_work_reschedule _ _).
      destruct (axis_state_eqb (locked_axis data2) AXIS_NONE) eqn:El.
      * apply axis_state_eqb_eq in El.
        rewrite handle_sticky_mode_unlocked by exact El; cbn [fst].
        intros Hnone; cbn [set_locked_axis locked_axis] in Hnone.
        apply determine_dominant_axis_none in Hnone; exact Hnone.
      * rewrite handle_sticky_mode_locked; cbn [fst].
        -- intros Hnone; rewrite Hnone in El; discriminate.
        -- intros Hnone; rewrite Hnone in El; discriminate.
    + rewrite (handle_event_irrelevant _ _ _ _ _ _ Hq); exact Hinv.
  - destruct (release_work data); [| exact Hinv].
    intros _; cbn; lia.
Qed.

(** X7.  In sticky mode with a positive threshold, after any sequence of
    events and releases from the initial state, an undetermined lock means
    that both magnitudes are below the threshold: the lock is taken on the
    very event that brings a magnitude to the threshold. *)
Theorem sticky_unlocked_below_threshold (config : axis_constrain_config)
  (l : list stimulus) :
  sticky config = true ->
  0 < threshold config ->
  locked_axis (history config initial_data l) = AXIS_NONE ->
  abs_accum_x (history config initial_data l) < threshold config
  /\ abs_accum_y (history config initial_data l) < threshold config.
Proof.
  intros Hs Hth.
  apply (exec_invariant (unlocked_below (threshold config)) config).
  - intros data s; apply unlocked_below_step; assumption.
  - intros _; cbn; lia.
Qed.

Lemma sticky_first_lock (config : axis_constrain_config)
  (data : axis_constrain_data) (event : input_event) :
  sticky config = true ->
  qualifying event = true ->
  locked_axis data = AXIS_NONE ->
  abs_accum_x data < threshold config ->
  abs_accum_y data < threshold config ->
  (locked_axis (snd (fst (handle_event config data event))) = AXIS_NONE
   /\ snd (handle_event config data event) = set_value event 0
   /\ ev_value (snd (handle_event config data event)) = 0)
  \/ (locked_axis (snd (fst (handle_event config data event)))
      = axis_of (is_x_of event)
      /\ snd (handle_event config data event) = event).
Proof.
  intros Hs Hq Hl Hx Hy.
  rewrite (handle_event_qualifying _ _ _ _ _ _ Hq); cbv zeta; rewrite Hs.
  cbn [fst snd].
  set (data2 := k_work_reschedule _ _).
  assert (Hl2 : locked_axis data2 = AXIS_NONE)
    by (unfold data2; destruct (is_x_of event); exact Hl).
  rewrite handle_sticky_mode_unlocked by exact Hl2; cbn [fst snd].
  cbn [set_locked_axis locked_axis].
  pose proof (determine_dominant_axis_reached data2 (threshold config)) as Hr.
  destruct (determine_dominant_axis data2 (threshold config)) eqn:Ed.
  - left; split; [reflexivity |]. now destruct (is_x_of event).
  - destruct (is_x_of event) eqn:Ex; [right; split; reflexivity |].
    exfalso; specialize (Hr ltac:(discriminate)).
    unfold data2 in Hr; cbn in Hr; lia.
  - destruct (is_x_of event) eqn:Ex; [| right; split; reflexivity].
    exfalso; specialize (Hr ltac:(discriminate)).
    unfold data2 in Hr; cbn in Hr; lia.
Qed.

(** X8.  In sticky mode with a positive threshold, in any state reached from
    the initial one whose lock is undetermined, a qualifying event either
    comes out with its value field equal to 0 (and nothing else changed) and
    leaves the lock undetermined, or takes the lock for its own axis and
    comes out unchanged: the lock never goes to the axis the event is not
    on. *)
Theorem sticky_lock_goes_to_event_axis (config : axis_constrain_config)
  (l : list stimulus) (event : input_event) :
  sticky config = true ->
  0 < threshold config ->
  qualifying event = true ->
  locked_axis (history config initial_data l) = AXIS_NONE ->
  (locked_axis
     (snd (fst (handle_event config (history config initial_data l) event)))
   = AXIS_NONE
   /\ snd (handle_event config (history config initial_data l) event)
      = set_value event 0
   /\ ev_value
        (snd (handle_event config (history config initial_data l) event))
      = 0)
  \/ (locked_axis
        (snd (fst (handle_event config (history config initial_data l) event)))
      = axis_of (is_x_of event)
      /\ snd (handle_event config (history config initial_data l) event)
         = event).
Proof.
  intros Hs Hth Hq Hl.
  assert (Hinv : unlocked_below (threshold config)
                   (history config initial_data l)).
  { apply (exec_invariant (unlocked_below (threshold config)) config).
    - intros data s; apply unlocked_below_step; assumption.
    - intros _; cbn; lia. }
  destruct (Hinv Hl) as [Hx Hy].
  apply sticky_first_lock; assumption.
Qed.

(** X9.  In sticky mode a qualifying event, from any state, leaves the
    release armed for [release_after_ms], and its accumulators are exactly
    those of the accumulator update (sticky mode never decays them); when
    the timer then expires, the instance is back in its initial state. *)
Theorem sticky_event_arms_release (config : axis_constrain_config)
  (data : axis_constrain_data) (event : input_event) :
  sticky config = true ->
  qualifying event = true ->
  let data' := advance config data (Motion event) in
  let data1 := update_accum data (is_x_of event) (ev_value event) in
  release_work data' = Some (release_after_ms config)
  /\ accum_x data' = accum_x data1
  /\ accum_y data' = accum_y data1
  /\ abs_accum_x data' = abs_accum_x data1
  /\ abs_accum_y data' = abs_accum_y data1
  /\ advance config data' Timer = initial_data.
Proof.
  intros Hs Hq; cbv zeta; cbn [step].
  rewrite (handle_event_qualifying _ _ _ _ _ _ Hq); cbv zeta; rewrite Hs.
  cbn [fst snd].
  set (data2 := k_work_reschedule _ _).
  assert (H : fst (handle_sticky_mode data2 config event (is_x_of event))
              = set_locked_axis data2
                  (locked_axis
                     (fst (handle_sticky_mode data2 config event
                             (is_x_of event))))).
  { destruct (axis_state_eqb (locked_axis data2) AXIS_NONE) eqn:El.
    - apply axis_state_eqb_eq in El.
      rewrite handle_sticky_mode_unlocked by exact El; reflexivity.
    - rewrite handle_sticky_mode_locked
        by (intros Hnone; rewrite Hnone in El; discriminate).
      now destruct data2. }
  rewrite H; cbn; repeat split.
Qed.

(** *** Non-sticky mode *)

Lemma handle_non_sticky_mode_frame (data : axis_constrain_data)
  (config : axis_constrain_config) (event : input_event) (is_x : bool) :
  locked_axis (fst (handle_non_sticky_mode data config event is_x))
  = locked_axis data
  /\ release_work (fst (handle_non_sticky_mode data config event is_x))
     = release_work data.
Proof.
  unfold handle_non_sticky_mode.
  destruct (axis_state_eqb _ AXIS_NONE); [split; reflexivity |].
  destruct (negb _); [split; reflexivity |].
  destruct (axis_state_eqb _ AXIS_X);
    match goal with |- context [if ?b then _ else _] => destruct b end;
    split; reflexivity.
Qed.

Lemma non_sticky_step_frame (config : axis_constrain_config)
  (data : axis_constrain_data) (event : input_event) :
  sticky config = false ->
  locked_axis (snd (fst (handle_event config data event))) = locked_axis data
  /\ release_work (snd (fst (handle_event config data event)))
     = release_work data.
Proof.
  intros Hs; destruct (qualifying event) eqn:Hq.
  - rewrite (handle_event_qualifying _ _ _ _ _ _ Hq); cbv zeta; rewrite Hs.
    cbn [fst snd].
    destruct (handle_non_sticky_mode_frame
                (update_accum data (is_x_of event) (ev_value event))
                config event (is_x_of event)) as [H1 H2].
    rewrite H1, H2; destruct (is_x_of event); split; reflexivity.
  - rewrite (handle_event_irrelevant _ _ _ _ _ _ Hq); split; reflexivity.
Qed.

(** X10.  In non-sticky mode no event, from any state, changes the lock or
    the release work item; so after any sequence of events and timer
    expiries from the initial state the lock is still undetermined and the
    release has never been armed. *)
Theorem non_sticky_never_locks_nor_arms (config : axis_constrain_config) :
  sticky config = false ->
  (forall (data : axis_constrain_data) (event : input_event),
      locked_axis (advance config data (Motion event)) = locked_axis data
      /\ release_work (advance config data (Motion event)) = release_work data)
  /\ (forall l : list stimulus,
         locked_axis (history config initial_data l) = AXIS_NONE
         /\ release_work (history config initial_data l) = None).
Proof.
  intros Hs; split.
  - intros data event; cbn [step]; apply non_sticky_step_frame, Hs.
  - intros l.
    apply (exec_invariant
             (fun data => locked_axis data = AXIS_NONE
                          /\ release_work data = None) config).
    + intros data [event |] [Hl Hw]; cbn [step].
      * destruct (non_sticky_step_frame config data event Hs) as [H1 H2].
        rewrite H1, H2; split; assumption.
      * rewrite Hw; split; assumption.
    + split; reflexivity.
Qed.

Lemma non_sticky_event_settles (config : axis_constrain_config)
  (data : axis_constrain_data) (event : input_event) :
  sticky config = false ->
  valid_threshold config ->
  qualifying event = true ->
  determine_dominant_axis
    (update_accum data (is_x_of event) (ev_value event)) (threshold config)
  = axis_of (is_x_of event) ->
  handle_event config data event
  = (0,
     settled (is_x_of event)
       (Z.sgn (accum_of (axis_of (is_x_of event))
                 (update_accum data (is_x_of event) (ev_value event))))
       (threshold config) (locked_axis data) (release_work data),
     event).
Proof.
  intros Hs Hth Hq Hdom.
  rewrite (handle_event_qualifying _ _ _ _ _ _ Hq); cbv zeta; rewrite Hs.
  set (data1 := update_accum data (is_x_of event) (ev_value event)) in *.
  pose proof (handle_non_sticky_mode_accept data1 config event (is_x_of event)
                Hth (axis_inv_after_update _ _ _) Hdom) as H.
  cbv zeta in H.
  destruct H as (Hev & Ho & Hao & Hgt & Hle & Habs & Hbound & Hl & Hw).
  assert (Hreach : threshold config
                   <= abs_accum_of (axis_of (is_x_of event)) data1).
  { rewrite <- Hdom; apply determine_dominant_axis_reached.
    rewrite Hdom; destruct (is_x_of event); discriminate. }
  assert (Ha1 : abs_accum_of (axis_of (is_x_of event)) data1
                = Z.abs (accum_of (axis_of (is_x_of event)) data1)).
  { destruct (axis_inv_after_update data (is_x_of event) (ev_value event))
      as [Hb1 He1].
    fold data1 in Hb1, He1; rewrite He1; apply safe_abs_bounded, Hb1. }
  assert (Hl1 : locked_axis data1 = locked_axis data)
    by (unfold data1; destruct (is_x_of event); reflexivity).
  assert (Hw1 : release_work data1 = release_work data)
    by (unfold data1; destruct (is_x_of event); reflexivity).
  destruct (handle_non_sticky_mode data1 config event (is_x_of event))
    as [data' event'].
  cbn [fst snd] in *; subst event'.
  f_equal; f_equal.
  destruct Hth as [Hpos _].
  destruct data' as [l' ax' ay' bx' by' w'].
  destruct (is_x_of event);
    cbn [axis_of other_axis accum_of abs_accum_of accum_x accum_y
         abs_accum_x abs_accum_y locked_axis release_work settled] in *;
    f_equal; try congruence; try lia.
Qed.

(** X11.  In non-sticky mode with a valid threshold, an accepted event leaves
    the accumulators in exactly one of four shapes: the dominant axis at the
    threshold, with the sign of what it had accumulated, its absolute
    accumulator at the threshold, and the other axis at zero. *)
Theorem non_sticky_accept_exact (config : axis_constrain_config)
  (data : axis_constrain_data) (event : input_event) :
  sticky config = false ->
  valid_threshold config ->
  qualifying event = true ->
  determine_dominant_axis
    (update_accum data (is_x_of event) (ev_value event)) (threshold config)
  = axis_of (is_x_of event) ->
  exists s : Z,
    (s = 1 \/ s = -1)
    /\ s = Z.sgn (accum_of (axis_of (is_x_of event))
                    (update_accum data (is_x_of event) (ev_value event)))
    /\ snd (fst (handle_event config data event))
       = settled (is_x_of event) s (threshold config)
           (locked_axis data) (release_work data).
Proof.
  intros Hs Hth Hq Hdom.
  rewrite (non_sticky_event_settles config data event Hs Hth Hq Hdom).
  eexists; split; [| split; reflexivity].
  assert (Hreach : threshold config
                   <= abs_accum_of (axis_of (is_x_of event))
                        (update_accum data (is_x_of event) (ev_value event))).
  { rewrite <- Hdom; apply determine_dominant_axis_reached.
    rewrite Hdom; destruct (is_x_of event); discriminate. }
  destruct (axis_inv_after_update data (is_x_of event) (ev_value event))
    as [Hb1 He1].
  rewrite He1, safe_abs_bounded in Hreach by exact Hb1.
  destruct Hth as [Hpos _]; lia.
Qed.

Lemma settled_step_same_axis (b : bool) (s th v : Z) (lock : axis_state)
  (work : option Z) :
  int32_range v ->
  0 < th <= MAX_ACCUM ->
  s = 1 \/ s = -1 ->
  update_accum (settled b s th lock work) b v
  = (let a := Z.max (- MAX_ACCUM) (Z.min MAX_ACCUM (s * th + v)) in
     if b
     then {| locked_axis := lock; accum_x := a; accum_y := 0;
             abs_accum_x := Z.abs a; abs_accum_y := 0; release_work := work |}
     else {| locked_axis := lock; accum_x := 0; accum_y := a;
             abs_accum_x := 0; abs_accum_y := Z.abs a; release_work := work |}).
Proof.
  intros Hv Hth Hsgn; cbv zeta.
  assert (Hr : int32_range (s * th))
    by (revert Hth; unfold int32_range; int_consts; lia).
  destruct b; unfold settled, update_accum;
    cbn [accum_x accum_y abs_accum_x abs_accum_y locked_axis release_work];
    rewrite (safe_accum_add_clamp _ _ Hr Hv);
    rewrite safe_abs_bounded by (int_consts; lia); reflexivity.
Qed.

Lemma settled_step_other_axis (b : bool) (s th v : Z) (lock : axis_state)
  (work : option Z) :
  int32_range v ->
  update_accum (settled (negb b) s th lock work) b v
  = (let a := Z.max (- MAX_ACCUM) (Z.min MAX_ACCUM v) in
     if b
     then {| locked_axis := lock; accum_x := a; accum_y := s * th;
             abs_accum_x := Z.abs a; abs_accum_y := th; release_work := work |}
     else {| locked_axis := lock; accum_x := s * th; accum_y := a;
             abs_accum_x := th; abs_accum_y := Z.abs a; release_work := work |}).
Proof.
  intros Hv; cbv zeta.
  assert (H0 : int32_range 0) by (unfold int32_range; int_consts; lia).
  destruct b; unfold settled, update_accum;
    cbn [negb accum_x accum_y abs_accum_x abs_accum_y locked_axis release_work];
    rewrite (safe_accum_add_clamp _ _ H0 Hv);
    rewrite safe_abs_bounded by (int_consts; lia); reflexivity.
Qed.

Lemma determine_dominant_axis_by_axis (data : axis_constrain_data) (th : Z)
  (b : bool) :
  th <= abs_accum_of (axis_of b) data ->
  (if b
   then abs_accum_of (other_axis (axis_of b)) data
        <= abs_accum_of (axis_of b) data
   else abs_accum_of (other_axis (axis_of b)) data
        < abs_accum_of (axis_of b) data) ->
  determine_dominant_axis data th = axis_of b.
Proof.
  destruct b; cbn [axis_of other_axis abs_accum_of];
    unfold determine_dominant_axis; split_cmp; cbn; intros;
    reflexivity || lia.
Qed.

(** X12.  Non-sticky mode, sustained movement: from the settled state of an
    axis, with a threshold that the accumulator can hold, a further event on
    that axis in the same direction (or with value 0) comes out unchanged
    and leaves the instance data exactly as it was. *)
Theorem non_sticky_sustained_fixed_point (config : axis_constrain_config)
  (event : input_event) (s : Z) (lock : axis_state) (work : option Z) :
  sticky config = false ->
  valid_threshold config ->
  threshold config <= MAX_ACCUM ->
  qualifying event = true ->
  int32_range (ev_value event) ->
  s = 1 \/ s = -1 ->
  0 <= s * ev_value event ->
  handle_event config
    (settled (is_x_of event) s (threshold config) lock work) event
  = (0, settled (is_x_of event) s (threshold config) lock work, event).
Proof.
  intros Hs Hth Hmax Hq Hv Hsgn Hdir.
  assert (Hth' : 0 < threshold config <= MAX_ACCUM)
    by (destruct Hth; split; assumption).
  pose proof (settled_step_same_axis (is_x_of event) s (threshold config)
                (ev_value event) lock work Hv Hth' Hsgn) as Hupd.
  cbv zeta in Hupd.
  rewrite non_sticky_event_settles; try assumption.
  - rewrite Hupd; f_equal; f_equal.
    destruct (is_x_of event);
      cbn [axis_of accum_of accum_x accum_y settled locked_axis release_work];
      (replace (Z.sgn _) with s
        by (revert Hth'; int_consts; intros Hth';
            destruct Hsgn; subst s; lia)); reflexivity.
  - rewrite Hupd; apply determine_dominant_axis_by_axis;
      destruct (is_x_of event);
      cbn [axis_of other_axis abs_accum_of abs_accum_x abs_accum_y];
      revert Hth'; int_consts; intros Hth'; destruct Hsgn; subst s; lia.
Qed.

Lemma non_sticky_event_suppressed (config : axis_constrain_config)
  (data : axis_constrain_data) (event : input_event) :
  sticky config = false ->
  qualifying event = true ->
  determine_dominant_axis
    (update_accum data (is_x_of event) (ev_value event)) (threshold config)
  <> axis_of (is_x_of event) ->
  handle_event config data event
  = (0, update_accum data (is_x_of event) (ev_value event), set_value event 0).
Proof.
  intros Hs Hq Hdom.
  rewrite (handle_event_qualifying _ _ _ _ _ _ Hq); cbv zeta; rewrite Hs.
  now rewrite handle_non_sticky_mode_suppress by exact Hdom.
Qed.

(** X13.  Non-sticky mode, reversal: from the settled state of an axis, with
    a threshold that the accumulator can hold, an event on that axis in the
    opposite direction passes exactly when its magnitude is at least twice
    the threshold, and the axis is then settled in the new direction; a
    smaller one comes out with value 0 and only moves the accumulator. *)
Theorem non_sticky_reversal_needs_twice_threshold
  (config : axis_constrain_config) (event : input_event) (s : Z)
  (lock : axis_state) (work : option Z) :
  sticky config = false ->
  valid_threshold config ->
  threshold config <= MAX_ACCUM ->
  qualifying event = true ->
  int32_range (ev_value event) ->
  s = 1 \/ s = -1 ->
  s * ev_value event < 0 ->
  handle_event config
    (settled (is_x_of event) s (threshold config) lock work) event
  = if 2 * threshold config <=? Z.abs (ev_value event)
    then (0, settled (is_x_of event) (- s) (threshold config) lock work, event)
    else (0,
          update_accum (settled (is_x_of event) s (threshold config) lock work)
            (is_x_of event) (ev_value event),
          set_value event 0).
Proof.
  intros Hs Hth Hmax Hq Hv Hsgn Hdir.
  assert (Hth' : 0 < threshold config <= MAX_ACCUM)
    by (destruct Hth; split; assumption).
  pose proof (settled_step_same_axis (is_x_of event) s (threshold config)
                (ev_value event) lock work Hv Hth' Hsgn) as Hupd.
  cbv zeta in Hupd.
  destruct (Z.leb_spec (2 * threshold config) (Z.abs (ev_value event)))
    as [Hbig | Hsmall].
  - rewrite non_sticky_event_settles; try assumption.
    + rewrite Hupd; f_equal; f_equal.
      destruct (is_x_of event);
        cbn [axis_of accum_of accum_x accum_y settled locked_axis release_work];
        (replace (Z.sgn _) with (- s)
          by (revert Hth' Hv; unfold int32_range; int_consts; intros Hth' Hv;
              destruct Hsgn; subst s; lia)); reflexivity.
    + rewrite Hupd; apply determine_dominant_axis_by_axis;
        destruct (is_x_of event);
        cbn [axis_of other_axis abs_accum_of abs_accum_x abs_accum_y];
        revert Hth' Hv; unfold int32_range; int_consts; intros Hth' Hv;
        destruct Hsgn; subst s; lia.
  - apply non_sticky_event_suppressed; try assumption.
    rewrite Hupd.
    assert (Hnone : forall data,
               abs_accum_x data < threshold config ->
               abs_accum_y data < threshold config ->
               determine_dominant_axis data (threshold config) = AXIS_NONE)
      by (intros data Hx Hy; apply determine_dominant_axis_none; split;
          assumption).
    destruct (is_x_of event); rewrite Hnone; try discriminate;
      cbn [abs_accum_x abs_accum_y];
      revert Hth' Hv; unfold int32_range; int_consts; intros Hth' Hv;
      destruct Hsgn; subst s; lia.
Qed.

(** X14.  Non-sticky mode, change of axis: from the settled state of one
    axis, an event on the other axis passes exactly when its magnitude
    (capped at [MAX_ACCUM]) beats the threshold, and the new axis is then
    settled in the direction of the event; otherwise it comes out with
    value 0 and only moves its accumulator.  To take over from Y, an X
    event needs a magnitude of at least the threshold; to take over from
    X, a Y event needs strictly more, since X wins a tie. *)
Theorem non_sticky_axis_change (config : axis_constrain_config)
  (event : input_event) (s : Z) (lock : axis_state) (work : option Z) :
  sticky config = false ->
  valid_threshold config ->
  qualifying event = true ->
  int32_range (ev_value event) ->
  handle_event config
    (settled (negb (is_x_of event)) s (threshold config) lock work) event
  = if (if is_x_of event
        then threshold config <=? Z.min (Z.abs (ev_value event)) MAX_ACCUM
        else threshold config <? Z.min (Z.abs (ev_value event)) MAX_ACCUM)
    then (0,
          settled (is_x_of event) (Z.sgn (ev_value event)) (threshold config)
            lock work,
          event)
    else (0,
          update_accum
            (settled (negb (is_x_of event)) s (threshold config) lock work)
            (is_x_of event) (ev_value event),
          set_value event 0).
Proof.
  intros Hs Hth Hq Hv.
  pose proof (settled_step_other_axis (is_x_of event) s (threshold config)
                (ev_value event) lock work Hv) as Hupd.
  cbv zeta in Hupd.
  assert (Hpos : 0 < threshold config) by (destruct Hth; assumption).
  match goal with |- _ = (if ?c then _ else _) => destruct c eqn:Ec end.
  - rewrite non_sticky_event_settles; try assumption.
    + rewrite Hupd; f_equal; f_equal.
      destruct (is_x_of event);
        cbn [axis_of accum_of accum_x accum_y settled locked_axis release_work
             negb];
        (replace (Z.sgn (Z.max _ _)) with (Z.sgn (ev_value event))
          by (revert Ec; split_cmp; try discriminate; intros _;
              revert Hv; unfold int32_range; int_consts; lia));
        reflexivity.
    + rewrite Hupd; apply determine_dominant_axis_by_axis;
        destruct (is_x_of event);
        cbn [axis_of other_axis abs_accum_of abs_accum_x abs_accum_y];
        revert Ec; split_cmp; try discriminate; intros _;
        revert Hv; unfold int32_range; int_consts; lia.
  - apply non_sticky_event_suppressed; try assumption.
    rewrite Hupd.
    destruct (is_x_of event).
    + rewrite (determine_dominant_axis_by_axis _ _ false); [discriminate | |];
        cbn [axis_of other_axis abs_accum_of abs_accum_x abs_accum_y];
        revert Ec; split_cmp; try discriminate; intros _;
        revert Hv; unfold int32_range; int_consts; lia.
    + rewrite (determine_dominant_axis_by_axis _ _ true); [discriminate | |];
        cbn [axis_of other_axis abs_accum_of abs_accum_x abs_accum_y];
        revert Ec; split_cmp; try discriminate; intros _;
        revert Hv; unfold int32_range; int_consts; lia.
Qed.

End Policies.

(** * The dead zone *)

Section DeadZone.

Variables INPUT_EV_REL INPUT_REL_X INPUT_REL_Y : Z.

Local Abbreviation handle_event :=
  (axis_constrain_handle_event INPUT_EV_REL INPUT_REL_X INPUT_REL_Y).
Local Abbreviation qualifying := (qualifies INPUT_EV_REL INPUT_REL_X INPUT_REL_Y).
Local Abbreviation is_x_of event := (ev_code event =? INPUT_REL_X).

Lemma first_update (b : bool) (v : Z) (work : option Z) :
  int32_range v ->
  update_accum
    {| locked_axis := AXIS_NONE; accum_x := 0; accum_y := 0;
       abs_accum_x := 0; abs_accum_y := 0; release_work := work |} b v
  = (let a := Z.max (- MAX_ACCUM) (Z.min MAX_ACCUM v) in
     if b
     then {| locked_axis := AXIS_NONE; accum_x := a; accum_y := 0;
             abs_accum_x := Z.abs a; abs_accum_y := 0; release_work := work |}
     else {| locked_axis := AXIS_NONE; accum_x := 0; accum_y := a;
             abs_accum_x := 0; abs_accum_y := Z.abs a; release_work := work |}).
Proof.
  intros Hv; cbv zeta.
  assert (H0 : int32_range 0) by (unfold int32_range; int_consts; lia).
  destruct b; unfold update_accum;
    cbn [accum_x accum_y abs_accum_x abs_accum_y locked_axis release_work];
    rewrite (safe_accum_add_clamp _ _ H0 Hv);
    rewrite safe_abs_bounded by (int_consts; lia); reflexivity.
Qed.

Lemma first_dominant (b : bool) (v th : Z) (work : option Z) :
  int32_range v ->
  0 < th ->
  determine_dominant_axis
    (update_accum
       {| locked_axis := AXIS_NONE; accum_x := 0; accum_y := 0;
          abs_accum_x := 0; abs_accum_y := 0; release_work := work |} b v) th
  = if th <=? Z.min (Z.abs v) MAX_ACCUM then axis_of b else AXIS_NONE.
Proof.
  intros Hv Hth; rewrite (first_update b v work Hv); cbv zeta.
  destruct (Z.leb_spec th (Z.min (Z.abs v) MAX_ACCUM)) as [Hge | Hlt].
  - apply determine_dominant_axis_by_axis; destruct b;
      cbn [axis_of other_axis abs_accum_of abs_accum_x abs_accum_y];
      revert Hv Hge; unfold int32_range; int_consts; lia.
  - apply determine_dominant_axis_none; destruct b;
      cbn [abs_accum_x abs_accum_y];
      revert Hv Hlt; unfold int32_range; int_consts; lia.
Qed.

(** X20.  The dead zone.  On an instance in its initial state (at start, or
    after a release), in either mode and with a valid threshold, a
    qualifying event comes out unchanged exactly when its magnitude, capped
    at [MAX_ACCUM], reaches the threshold; otherwise it comes out with value
    0.  In sticky mode the event that passes is also the one that takes the
    lock, for its own axis. *)
Theorem first_event_dead_zone (config : axis_constrain_config)
  (event : input_event) :
  valid_threshold config ->
  qualifying event = true ->
  int32_range (ev_value event) ->
  snd (handle_event config initial_data event)
  = (if threshold config <=? Z.min (Z.abs (ev_value event)) MAX_ACCUM
     then event else set_value event 0)
  /\ (sticky config = true ->
      locked_axis (snd (fst (handle_event config initial_data event)))
      = (if threshold config <=? Z.min (Z.abs (ev_value event)) MAX_ACCUM
         then axis_of (is_x_of event) else AXIS_NONE)).
Proof.
  intros Hth Hq Hv.
  assert (Hpos : 0 < threshold config) by (destruct Hth; assumption).
  pose proof (first_dominant (is_x_of event) (ev_value event)
                (threshold config) None Hv Hpos) as Hdom.
  change (mk_data AXIS_NONE 0 0 0 0 None) with initial_data in Hdom.
  destruct (sticky config) eqn:Hs.
  - rewrite (handle_event_qualifying _ _ _ _ _ _ Hq); cbv zeta; rewrite Hs.
    cbn [fst snd].
    rewrite handle_sticky_mode_unlocked
      by (destruct (is_x_of event); reflexivity).
    cbn [fst snd set_locked_axis locked_axis].
    rewrite determine_dominant_axis_reschedule, Hdom.
    destruct (threshold config <=? _); destruct (is_x_of event);
      split; reflexivity.
  - split; [| discriminate].
    destruct (threshold config <=? _) eqn:E.
    + now rewrite non_sticky_event_settles.
    + rewrite non_sticky_event_suppressed; try assumption; [reflexivity |].
      rewrite Hdom; destruct (is_x_of event); discriminate.
Qed.

End DeadZone.

(** * Construction and logging *)

(** X15.  An instance built from properties that fit in an [int] holds
    exactly those properties, its threshold is valid, its release delay is
    positive whenever it is sticky, and its data is the initial state: every
    instance that exists satisfies what the handlers rely on. *)
Theorem construct_instance_valid (p : dt_props) (config : axis_constrain_config)
  (data : axis_constrain_data) :
  int32_range (prop_threshold p) ->
  int32_range (prop_release_after_ms p) ->
  construct p = inr (config, data) ->
  threshold config = prop_threshold p
  /\ sticky config = prop_sticky p
  /\ release_after_ms config = prop_release_after_ms p
  /\ valid_threshold config
  /\ (sticky config = true -> 0 < release_after_ms config)
  /\ data = initial_data.
Proof.
  intros Ht Hr Hc.
  destruct (construct_config_exact p config data Ht Hr Hc)
    as (H1 & H2 & H3 & H4 & H5).
  repeat split; try assumption; try apply H4.
  revert Hc; unfold construct.
  destruct (AC_INST p) as [msg | [c d]]; [discriminate |].
  intros H; injection H as _ <-; reflexivity.
Qed.

(** X16.  The label the release handler logs for the lock it drops is the
    one [axis_name] gives that lock, and it tells the three axis states
    apart. *)
Theorem release_log_label_axis_name (data : axis_constrain_data) :
  release_log_label data = axis_name (locked_axis data)
  /\ (release_log_label data = "X"%string <-> locked_axis data = AXIS_X)
  /\ (release_log_label data = "Y"%string <-> locked_axis data = AXIS_Y)
  /\ (release_log_label data = "NONE"%string <-> locked_axis data = AXIS_NONE).
Proof.
  unfold release_log_label; destruct (locked_axis data); cbn;
    repeat split; intros H; reflexivity || discriminate H.
Qed.

(** * The driver with remainder tracking *)

Lemma to_int32_add_l (a b : Z) : to_int32 (to_int32 a + b) = to_int32 (a + b).
Proof.
  unfold to_int32, wrap.
  change (2 ^ (32 - 1)) with 2147483648; change (2 ^ 32) with 4294967296.
  replace ((a + 2147483648) mod 4294967296 - 2147483648 + b + 2147483648)
    with ((a + 2147483648) mod 4294967296 + b) by lia.
  rewrite Z.add_mod_idemp_l by lia.
  replace (a + 2147483648 + b) with (a + b + 2147483648) by lia.
  reflexivity.
Qed.

Section LegacyHandling.

Variables INPUT_EV_REL INPUT_REL_X INPUT_REL_Y : Z.

Local Abbreviation legacy_handle :=
  (Legacy.axis_constrain_handle_event INPUT_EV_REL INPUT_REL_X INPUT_REL_Y).
Local Abbreviation legacy_run :=
  (Legacy.process INPUT_EV_REL INPUT_REL_X INPUT_REL_Y).
Local Abbreviation total := (Legacy.axis_total INPUT_EV_REL INPUT_REL_X INPUT_REL_Y).
Local Abbreviation qualifying := (qualifies INPUT_EV_REL INPUT_REL_X INPUT_REL_Y).
Local Abbreviation is_x_of event := (ev_code event =? INPUT_REL_X).


Lemma to_int32_in_range (z : Z) : int32_range (to_int32 z).
Proof.
  unfold int32_range, to_int32, wrap; int_consts.
  change (2 ^ (32 - 1)) with 2147483648; change (2 ^ 32) with 4294967296.
  pose proof (Z.mod_pos_bound (z + 2147483648) 4294967296); lia.
Qed.

Lemma legacy_handle_irrelevant (config : Legacy.axis_constrain_config)
  (data : Legacy.axis_constrain_data) (event : input_event) :
  qualifying event = false -> legacy_handle config data event = (0, data, event).
Proof.
  unfold qualifies, Legacy.axis_constrain_handle_event; split_cmp; cbn;
    intros H; reflexivity || discriminate.
Qed.

Lemma legacy_handle_qualifying (config : Legacy.axis_constrain_config)
  (data : Legacy.axis_constrain_data) (event : input_event) :
  qualifying event = true ->
  legacy_handle config data event
  = let data3 :=
      Legacy.determine config
        (Legacy.accumulate
           (if Legacy.sticky config
            then Legacy.reschedule data (Legacy.release_after_ms config)
            else data)
           (is_x_of event) (ev_value event)) in
    (0, fst (Legacy.constrain config data3 event (is_x_of event)),
        snd (Legacy.constrain config data3 event (is_x_of event))).
Proof.
  unfold qualifies, Legacy.axis_constrain_handle_event; intros H.
  destruct (ev_type event =? INPUT_EV_REL); [| discriminate].
  destruct (ev_code event =? INPUT_REL_X), (ev_code event =? INPUT_REL_Y);
    try discriminate; cbn [negb andb]; cbv zeta;
    match goal with |- context [let '(_, _) := ?r in _] => destruct r end;
    reflexivity.
Qed.

Lemma legacy_constrain_event (config : Legacy.axis_constrain_config)
  (data : Legacy.axis_constrain_data) (event : input_event) (is_x : bool) :
  Legacy.locked_axis (fst (Legacy.constrain config data event is_x))
  = Legacy.locked_axis data
  /\ Legacy.release_work (fst (Legacy.constrain config data event is_x))
     = Legacy.release_work data
  /\ snd (Legacy.constrain config data event is_x)
     = (if axis_state_eqb (Legacy.locked_axis data) (other_axis (axis_of is_x))
        then set_value event 0 else event).
Proof.
  unfold Legacy.constrain; destruct data as [l ax ay rx ry w].
  destruct l, is_x, (Legacy.track_remainders config); repeat split.
Qed.

Lemma legacy_accumulate_frame (data : Legacy.axis_constrain_data) (is_x : bool)
  (value : Z) :
  Legacy.locked_axis (Legacy.accumulate data is_x value)
  = Legacy.locked_axis data
  /\ Legacy.remainder_x (Legacy.accumulate data is_x value)
     = Legacy.remainder_x data
  /\ Legacy.remainder_y (Legacy.accumulate data is_x value)
     = Legacy.remainder_y data
  /\ Legacy.release_work (Legacy.accumulate data is_x value)
     = Legacy.release_work data.
Proof. unfold Legacy.accumulate; destruct is_x; repeat split. Qed.

Lemma legacy_determine_locked (config : Legacy.axis_constrain_config)
  (data : Legacy.axis_constrain_data) :
  Legacy.locked_axis data <> AXIS_NONE -> Legacy.determine config data = data.
Proof.
  unfold Legacy.determine; destruct (Legacy.locked_axis data);
    cbn [axis_state_eqb]; congruence.
Qed.

(** X17.  In the driver with remainder tracking, an event comes back with
    status 0 and is either untouched or has its value replaced by 0; it is
    replaced exactly when the event qualifies and the lock, as it stands
    after this event, is on the other axis: the value field is then 0, it is
    the original value otherwise, and no other field ever changes.  In
    particular nothing is suppressed while the lock is undetermined. *)
Theorem legacy_suppresses_only_off_axis (config : Legacy.axis_constrain_config)
  (data : Legacy.axis_constrain_data) (event : input_event) :
  let r := legacy_handle config data event in
  fst (fst r) = 0
  /\ snd r
     = (if qualifying event
           && axis_state_eqb (Legacy.locked_axis (snd (fst r)))
                (other_axis (axis_of (is_x_of event)))
        then set_value event 0 else event)
  /\ (Legacy.locked_axis (snd (fst r)) = AXIS_NONE -> snd r = event)
  /\ ev_value (snd r)
     = (if qualifying event
           && axis_state_eqb (Legacy.locked_axis (snd (fst r)))
                (other_axis (axis_of (is_x_of event)))
        then 0 else ev_value event)
  /\ ev_dev (snd r) = ev_dev event
  /\ ev_sync (snd r) = ev_sync event
  /\ ev_type (snd r) = ev_type event
  /\ ev_code (snd r) = ev_code event.
Proof.
  cbv zeta; destruct (qualifying event) eqn:Hq.
  - rewrite (legacy_handle_qualifying _ _ _ Hq); cbv zeta; cbn [fst snd andb].
    set (data3 := Legacy.determine _ _).
    destruct (legacy_constrain_event config data3 event (is_x_of event))
      as (Hl & _ & He).
    rewrite Hl, He; split; [reflexivity | split; [reflexivity | split]].
    + intros Hnone; rewrite Hnone; now destruct (is_x_of event).
    + destruct (axis_state_eqb _ _); repeat split.
  - rewrite (legacy_handle_irrelevant _ _ _ Hq); cbn; repeat split.
Qed.

Lemma legacy_step_locked (config : Legacy.axis_constrain_config)
  (data : Legacy.axis_constrain_data) (event : input_event) :
  Legacy.locked_axis data <> AXIS_NONE ->
  Legacy.locked_axis (snd (fst (legacy_handle config data event)))
  = Legacy.locked_axis data
  /\ snd (legacy_handle config data event)
     = (if qualifying event
           && axis_state_eqb (Legacy.locked_axis data)
                (other_axis (axis_of (is_x_of event)))
        then set_value event 0 else event)
  /\ (Legacy.sticky config = false ->
      Legacy.release_work (snd (fst (legacy_handle config data event)))
      = Legacy.release_work data).
Proof.
  intros Hl; destruct (qualifying event) eqn:Hq.
  - rewrite (legacy_handle_qualifying _ _ _ Hq); cbv zeta; cbn [fst snd andb].
    set (data1 := if Legacy.sticky config then _ else data).
    assert (Hl1 : Legacy.locked_axis data1 = Legacy.locked_axis data)
      by (unfold data1; destruct (Legacy.sticky config); reflexivity).
    destruct (legacy_accumulate_frame data1 (is_x_of event) (ev_value event))
      as (Hl2 & _ & _ & Hw2).
    rewrite legacy_determine_locked by congruence.
    destruct (legacy_constrain_event config
                (Legacy.accumulate data1 (is_x_of event) (ev_value event))
                event (is_x_of event)) as (Hl3 & Hw3 & He).
    rewrite Hl3, Hw3, He, Hl2, Hw2, Hl1.
    split; [reflexivity | split; [reflexivity |]].
    intros Hs; unfold data1; now rewrite Hs.
  - rewrite (legacy_handle_irrelevant _ _ _ Hq); cbn; repeat split.
Qed.

(** X18.  In the driver with remainder tracking, once the lock is on an axis
    no stream of events moves it, in sticky mode or not: each qualifying
    event on the other axis comes out with value 0 and every other event
    comes out untouched.  With sticky off the release is never armed by
    these events, so nothing ever takes the lock back. *)
Theorem legacy_lock_persists (config : Legacy.axis_constrain_config)
  (a : axis_state) (events : list input_event)
  (data : Legacy.axis_constrain_data) :
  a <> AXIS_NONE ->
  Legacy.locked_axis data = a ->
  Legacy.locked_axis (fst (legacy_run config data events)) = a
  /\ snd (legacy_run config data events)
     = map (fun event : input_event =>
              if qualifying event
                 && axis_state_eqb a (other_axis (axis_of (is_x_of event)))
              then set_value event 0 else event) events
  /\ (Legacy.sticky config = false ->
      Legacy.release_work (fst (legacy_run config data events))
      = Legacy.release_work data).
Proof.
  intros Ha; revert data.
  induction events as [| event rest IH]; intros data Hl.
  - cbn; repeat split; exact Hl.
  - cbn [Legacy.process map].
    destruct (legacy_step_locked config data event) as (H1 & H2 & H3);
      [congruence |].
    destruct (legacy_handle config data event) as [[ret data'] event'].
    cbn [fst snd] in H1, H2, H3.
    specialize (IH data' ltac:(congruence)).
    destruct (legacy_run config data' rest) as [data'' out].
    cbn [fst snd] in *.
    destruct IH as (IH1 & IH2 & IH3).
    split; [exact IH1 | split].
    + rewrite H2, IH2, Hl; reflexivity.
    + intros Hs; rewrite (IH3 Hs); exact (H3 Hs).
Qed.

Lemma legacy_determine_frame (config : Legacy.axis_constrain_config)
  (data : Legacy.axis_constrain_data) :
  Legacy.remainder_x (Legacy.determine config data) = Legacy.remainder_x data
  /\ Legacy.remainder_y (Legacy.determine config data)
     = Legacy.remainder_y data.
Proof.
  unfold Legacy.determine.
  destruct (axis_state_eqb _ AXIS_NONE); [| split; reflexivity].
  destruct (_ && _); [split; reflexivity |].
  destruct (_ && _); split; reflexivity.
Qed.

Lemma legacy_constrain_remainders (config : Legacy.axis_constrain_config)
  (data : Legacy.axis_constrain_data) (event : input_event) (is_x : bool) :
  Legacy.remainder_x (fst (Legacy.constrain config data event is_x))
  = (if Legacy.track_remainders config
        && axis_state_eqb (Legacy.locked_axis data) AXIS_Y && is_x
     then to_int32 (Legacy.remainder_x data + ev_value event)
     else Legacy.remainder_x data)
  /\ Legacy.remainder_y (fst (Legacy.constrain config data event is_x))
     = (if Legacy.track_remainders config
           && axis_state_eqb (Legacy.locked_axis data) AXIS_X && negb is_x
        then to_int32 (Legacy.remainder_y data + ev_value event)
        else Legacy.remainder_y data).
Proof.
  unfold Legacy.constrain; destruct data as [l ax ay rx ry w].
  destruct l, is_x, (Legacy.track_remainders config); split; reflexivity.
Qed.

Lemma legacy_step_remainders (config : Legacy.axis_constrain_config)
  (data : Legacy.axis_constrain_data) (event : input_event) :
  Legacy.locked_axis data <> AXIS_NONE ->
  Legacy.remainder_x (snd (fst (legacy_handle config data event)))
  = (if Legacy.track_remainders config
        && axis_state_eqb (Legacy.locked_axis data) AXIS_Y
        && (qualifying event && is_x_of event)
     then to_int32 (Legacy.remainder_x data + ev_value event)
     else Legacy.remainder_x data)
  /\ Legacy.remainder_y (snd (fst (legacy_handle config data event)))
     = (if Legacy.track_remainders config
           && axis_state_eqb (Legacy.locked_axis data) AXIS_X
           && (qualifying event && negb (is_x_of event))
        then to_int32 (Legacy.remainder_y data + ev_value event)
        else Legacy.remainder_y data).
Proof.
  intros Hl; destruct (qualifying event) eqn:Hq.
  - rewrite (legacy_handle_qualifying _ _ _ Hq); cbv zeta; cbn [fst snd andb].
    set (data1 := if Legacy.sticky config then _ else data).
    assert (H1 : Legacy.locked_axis data1 = Legacy.locked_axis data
                 /\ Legacy.remainder_x data1 = Legacy.remainder_x data
                 /\ Legacy.remainder_y data1 = Legacy.remainder_y data)
      by (unfold data1; destruct (Legacy.sticky config); repeat split).
    destruct H1 as (Hl1 & Hx1 & Hy1).
    destruct (legacy_accumulate_frame data1 (is_x_of event) (ev_value event))
      as (Hl2 & Hx2 & Hy2 & _).
    rewrite legacy_determine_locked by congruence.
    destruct (legacy_constrain_remainders config
                (Legacy.accumulate data1 (is_x_of event) (ev_value event))
                event (is_x_of event)) as (Hx3 & Hy3).
    rewrite Hx3, Hy3, Hl2, Hx2, Hy2, Hl1, Hx1, Hy1; split; reflexivity.
  - rewrite (legacy_handle_irrelevant _ _ _ Hq); cbn [fst snd].
    rewrite !andb_false_r; split; reflexivity.
Qed.

Lemma legacy_remainders_locked (config : Legacy.axis_constrain_config)
  (events : list input_event) (data : Legacy.axis_constrain_data) :
  Legacy.locked_axis data <> AXIS_NONE ->
  int32_range (Legacy.remainder_x data) ->
  int32_range (Legacy.remainder_y data) ->
  Legacy.remainder_x (fst (legacy_run config data events))
  = (if Legacy.track_remainders config
        && axis_state_eqb (Legacy.locked_axis data) AXIS_Y
     then to_int32 (Legacy.remainder_x data + total true events)
     else Legacy.remainder_x data)
  /\ Legacy.remainder_y (fst (legacy_run config data events))
     = (if Legacy.track_remainders config
           && axis_state_eqb (Legacy.locked_axis data) AXIS_X
        then to_int32 (Legacy.remainder_y data + total false events)
        else Legacy.remainder_y data).
Proof.
  revert data; induction events as [| event rest IH]; intros data Hl Hrx Hry.
  - cbn [Legacy.process Legacy.axis_total fst]; rewrite !Z.add_0_r.
    rewrite !to_int32_small by assumption.
    split; match goal with |- _ = (if ?b then _ else _) => destruct b end;
      reflexivity.
  - cbn [Legacy.process Legacy.axis_total].
    destruct (legacy_step_locked config data event Hl) as (Hl' & _ & _).
    destruct (legacy_step_remainders config data event Hl) as (Hx' & Hy').
    destruct (legacy_handle config data event) as [[ret data'] event'].
    cbn [fst snd] in Hl', Hx', Hy'.
    assert (Hrx' : int32_range (Legacy.remainder_x data'))
      by (rewrite Hx';
          match goal with |- int32_range (if ?b then _ else _) => destruct b end;
          [apply to_int32_in_range | exact Hrx]).
    assert (Hry' : int32_range (Legacy.remainder_y data'))
      by (rewrite Hy';
          match goal with |- int32_range (if ?b then _ else _) => destruct b end;
          [apply to_int32_in_range | exact Hry]).
    specialize (IH data' ltac:(congruence) Hrx' Hry').
    destruct (legacy_run config data' rest) as [data'' out].
    cbn [fst snd] in *.
    destruct IH as [IHx IHy]; rewrite IHx, IHy, Hl', Hx', Hy'.
    destruct (Legacy.track_remainders config), (Legacy.locked_axis data),
      (qualifying event), (is_x_of event);
      cbn [andb negb axis_state_eqb Bool.eqb];
      rewrite ?to_int32_add_l, ?Z.add_0_l, ?Z.add_assoc;
      split; reflexivity.
Qed.

(** X19.  In the driver with remainder tracking, with tracking on and the
    lock on an axis, the remainder of the other axis after a stream of
    events is its value before plus the values of all the events of the
    stream that were suppressed (the qualifying events on that other axis),
    in [int32_t] arithmetic; the remainder of the locked axis is unchanged.
    With tracking off neither remainder changes. *)
Theorem legacy_remainder_total (config : Legacy.axis_constrain_config)
  (events : list input_event) (data : Legacy.axis_constrain_data) :
  Legacy.locked_axis data <> AXIS_NONE ->
  int32_range (Legacy.remainder_x data) ->
  int32_range (Legacy.remainder_y data) ->
  (Legacy.track_remainders config = true ->
   Legacy.locked_axis data = AXIS_X ->
   Legacy.remainder_y (fst (legacy_run config data events))
   = to_int32 (Legacy.remainder_y data + total false events)
   /\ Legacy.remainder_x (fst (legacy_run config data events))
      = Legacy.remainder_x data)
  /\ (Legacy.track_remainders config = true ->
      Legacy.locked_axis data = AXIS_Y ->
      Legacy.remainder_x (fst (legacy_run config data events))
      = to_int32 (Legacy.remainder_x data + total true events)
      /\ Legacy.remainder_y (fst (legacy_run config data events))
         = Legacy.remainder_y data)
  /\ (Legacy.track_remainders config = false ->
      Legacy.remainder_x (fst (legacy_run config data events))
      = Legacy.remainder_x data
      /\ Legacy.remainder_y (fst (legacy_run config data events))
         = Legacy.remainder_y data).
Proof.
  intros Hl Hrx Hry.
  destruct (legacy_remainders_locked config events data Hl Hrx Hry)
    as [Hx Hy].
  rewrite Hx, Hy.
  split; [| split].
  - intros -> ->; split; reflexivity.
  - intros -> ->; split; reflexivity.
  - intros ->; split; reflexivity.
Qed.

End LegacyHandling.

(** * Instances of the further properties *)

Lemma safe_accum_add_saturates_witness :
  int32_range INT32_MAX
  /\ int32_range INT32_MIN
  /\ safe_accum_add INT32_MAX INT32_MAX = MAX_ACCUM
  /\ safe_accum_add 5 INT32_MIN = - MAX_ACCUM
  /\ safe_accum_add (-3) 10 = -3 + 10.
Proof.
  assert (Hmax : int32_range INT32_MAX) by (unfold int32_range; int_consts; lia).
  assert (Hmin : int32_range INT32_MIN) by (unfold int32_range; int_consts; lia).
  assert (H5 : int32_range 5) by (unfold int32_range; int_consts; lia).
  assert (H3 : int32_range (-3)) by (unfold int32_range; int_consts; lia).
  assert (H10 : int32_range 10) by (unfold int32_range; int_consts; lia).
  split; [exact Hmax | split; [exact Hmin | split; [| split]]].
  - destruct (safe_accum_add_saturates INT32_MAX INT32_MAX Hmax Hmax)
      as (_ & _ & _ & Hhi & _).
    apply Hhi; int_consts; lia.
  - destruct (safe_accum_add_saturates 5 INT32_MIN H5 Hmin)
      as (_ & _ & _ & _ & Hlo & _).
    apply Hlo; int_consts; lia.
  - destruct (safe_accum_add_saturates (-3) 10 H3 H10) as (_ & _ & Hin & _).
    apply Hin; int_consts; lia.
Defined.

Lemma safe_abs_int32_witness :
  int32_range INT32_MIN
  /\ safe_abs INT32_MIN = Z.abs INT32_MIN - 1
  /\ safe_abs (-7) = Z.abs (-7).
Proof.
  assert (Hmin : int32_range INT32_MIN) by (unfold int32_range; int_consts; lia).
  assert (H7 : int32_range (-7)) by (unfold int32_range; int_consts; lia).
  split; [exact Hmin | split].
  - destruct (safe_abs_int32 INT32_MIN Hmin) as (_ & _ & Hat & _).
    apply Hat; reflexivity.
  - destruct (safe_abs_int32 (-7) H7) as (_ & Hin & _).
    apply Hin; int_consts; lia.
Defined.

Lemma update_accum_undo_witness :
  accum_inv (mk_data AXIS_NONE 5 (-3) 5 3 None)
  /\ update_accum (update_accum (mk_data AXIS_NONE 5 (-3) 5 3 None) false 100)
       false (- 100)
     = mk_data AXIS_NONE 5 (-3) 5 3 None.
Proof.
  assert (Hinv : accum_inv (mk_data AXIS_NONE 5 (-3) 5 3 None))
    by (repeat split; cbn; int_consts; lia).
  split; [exact Hinv |].
  apply (update_accum_undo (mk_data AXIS_NONE 5 (-3) 5 3 None) false 100 Hinv).
  cbn; int_consts; lia.
Defined.

Lemma determine_dominant_axis_threshold_witness :
  determine_dominant_axis (locked_on AXIS_NONE 12 (-20)) 3
  = determine_dominant_axis (locked_on AXIS_NONE 12 (-20)) 15.
Proof.
  destruct (determine_dominant_axis_threshold
              (locked_on AXIS_NONE 12 (-20)) 15 3) as [Hlow _]; [lia |].
  apply Hlow; discriminate.
Defined.

Lemma construct_instance_valid_witness :
  valid_threshold sticky_10
  /\ (sticky sticky_10 = true -> 0 < release_after_ms sticky_10).
Proof.
  destruct (construct_instance_valid (mk_props 10 true 150) sticky_10
              initial_data) as (_ & _ & _ & Hth & Hrel & _);
    [unfold int32_range; int_consts; cbn; lia
    | unfold int32_range; int_consts; cbn; lia
    | reflexivity
    | split; assumption].
Defined.

Lemma sticky_unlocked_below_threshold_witness :
  abs_accum_x (exec EV_REL REL_X REL_Y sticky_10 initial_data
                 [Motion (rel_x 6); Motion (rel_y (-9)); Motion key_press])
  < 10
  /\ abs_accum_y (exec EV_REL REL_X REL_Y sticky_10 initial_data
                    [Motion (rel_x 6); Motion (rel_y (-9)); Motion key_press])
     < 10.
Proof.
  apply (sticky_unlocked_below_threshold EV_REL REL_X REL_Y sticky_10
           [Motion (rel_x 6); Motion (rel_y (-9)); Motion key_press]);
    [reflexivity | cbn; lia | reflexivity].
Defined.

Lemma sticky_lock_goes_to_event_axis_witness :
  axis_constrain_handle_event EV_REL REL_X REL_Y sticky_10
    (exec EV_REL REL_X REL_Y sticky_10 initial_data [Motion (rel_x 6)])
    (rel_y 9)
  = (0, mk_data AXIS_NONE 6 9 6 9 (Some 150), rel_y 0)
  /\ ev_value
       (snd (axis_constrain_handle_event EV_REL REL_X REL_Y sticky_10
               (exec EV_REL REL_X REL_Y sticky_10 initial_data
                  [Motion (rel_x 6)])
               (rel_y 9)))
     = 0
  /\ axis_constrain_handle_event EV_REL REL_X REL_Y sticky_10
       (exec EV_REL REL_X REL_Y sticky_10 initial_data
          [Motion (rel_x 6); Motion (rel_y 9)])
       (rel_y 2)
     = (0, mk_data AXIS_Y 6 11 6 11 (Some 150), rel_y 2).
Proof.
  destruct (sticky_lock_goes_to_event_axis EV_REL REL_X REL_Y sticky_10
              [Motion (rel_x 6)] (rel_y 9))
    as [(Hnone & Hev & Hzero) | (Hlock & _)];
    [reflexivity | cbn; lia | reflexivity | reflexivity | |
     exfalso; vm_compute in Hlock; discriminate Hlock].
  destruct (sticky_lock_goes_to_event_axis EV_REL REL_X REL_Y sticky_10
              [Motion (rel_x 6); Motion (rel_y 9)] (rel_y 2))
    as [(Hnone' & _) | (Hlock' & Hev')];
    [reflexivity | cbn; lia | reflexivity | reflexivity
     | exfalso; vm_compute in Hnone'; discriminate Hnone' |].
  assert (Hfull : forall r : Z * axis_constrain_data * input_event,
             r = (fst (fst r), snd (fst r), snd r))
    by (intros [[? ?] ?]; reflexivity).
  split; [| split; [exact Hzero |]].
  - rewrite (Hfull (axis_constrain_handle_event EV_REL REL_X REL_Y sticky_10
                      (exec EV_REL REL_X REL_Y sticky_10 initial_data
                         [Motion (rel_x 6)]) (rel_y 9))), Hev.
    reflexivity.
  - rewrite (Hfull (axis_constrain_handle_event EV_REL REL_X REL_Y sticky_10
                      (exec EV_REL REL_X REL_Y sticky_10 initial_data
                         [Motion (rel_x 6); Motion (rel_y 9)]) (rel_y 2))),
      Hev'.
    reflexivity.
Defined.

Lemma sticky_event_arms_release_witness :
  release_work
    (step EV_REL REL_X REL_Y sticky_10 (mk_data AXIS_X 12 0 12 0 None)
       (Motion (rel_y 20)))
  = Some 150
  /\ step EV_REL REL_X REL_Y sticky_10
       (step EV_REL REL_X REL_Y sticky_10 (mk_data AXIS_X 12 0 12 0 None)
          (Motion (rel_y 20)))
       Timer
     = initial_data.
Proof.
  destruct (sticky_event_arms_release EV_REL REL_X REL_Y sticky_10
              (mk_data AXIS_X 12 0 12 0 None) (rel_y 20))
    as (Hw & _ & _ & _ & _ & Hfire); [reflexivity | reflexivity |].
  split; [exact Hw | exact Hfire].
Defined.

Lemma non_sticky_never_locks_nor_arms_witness :
  locked_axis (exec EV_REL REL_X REL_Y loose_5 initial_data
                 [Motion (rel_x 50); Timer; Motion (rel_y 60)])
  = AXIS_NONE
  /\ release_work (exec EV_REL REL_X REL_Y loose_5 initial_data
                     [Motion (rel_x 50); Timer; Motion (rel_y 60)])
     = None.
Proof.
  destruct (non_sticky_never_locks_nor_arms EV_REL REL_X REL_Y loose_5)
    as [_ Hrun]; [reflexivity |].
  exact (Hrun [Motion (rel_x 50); Timer; Motion (rel_y 60)]).
Defined.

Lemma non_sticky_accept_exact_witness :
  exists s : Z,
    (s = 1 \/ s = -1)
    /\ s = Z.sgn (accum_of (axis_of (ev_code (rel_x (-50)) =? REL_X))
                    (update_accum (mk_data AXIS_NONE 3 4 3 4 None)
                       (ev_code (rel_x (-50)) =? REL_X)
                       (ev_value (rel_x (-50)))))
    /\ snd (fst (axis_constrain_handle_event EV_REL REL_X REL_Y loose_5
                   (mk_data AXIS_NONE 3 4 3 4 None) (rel_x (-50))))
       = settled (ev_code (rel_x (-50)) =? REL_X) s (threshold loose_5)
           (locked_axis (mk_data AXIS_NONE 3 4 3 4 None))
           (release_work (mk_data AXIS_NONE 3 4 3 4 None)).
Proof.
  apply (non_sticky_accept_exact EV_REL REL_X REL_Y loose_5
           (mk_data AXIS_NONE 3 4 3 4 None) (rel_x (-50)));
    [reflexivity
    | unfold valid_threshold; int_consts; cbn; lia
    | reflexivity
    | reflexivity].
Defined.

Lemma non_sticky_sustained_fixed_point_witness :
  axis_constrain_handle_event EV_REL REL_X REL_Y loose_5
    (settled true (-1) 5 AXIS_NONE None) (rel_x (-50))
  = (0, settled true (-1) 5 AXIS_NONE None, rel_x (-50)).
Proof.
  apply (non_sticky_sustained_fixed_point EV_REL REL_X REL_Y loose_5
           (rel_x (-50)) (-1) AXIS_NONE None);
    [reflexivity
    | unfold valid_threshold; int_consts; cbn; lia
    | int_consts; cbn; lia
    | reflexivity
    | unfold int32_range; int_consts; cbn; lia
    | right; reflexivity
    | cbn; lia].
Defined.

Lemma non_sticky_reversal_needs_twice_threshold_witness :
  axis_constrain_handle_event EV_REL REL_X REL_Y loose_5
    (settled true 1 5 AXIS_NONE None) (rel_x (-10))
  = (0, settled true (-1) 5 AXIS_NONE None, rel_x (-10))
  /\ axis_constrain_handle_event EV_REL REL_X REL_Y loose_5
       (settled true 1 5 AXIS_NONE None) (rel_x (-9))
     = (0, mk_data AXIS_NONE (-4) 0 4 0 None, rel_x 0).
Proof.
  split.
  - apply (non_sticky_reversal_needs_twice_threshold EV_REL REL_X REL_Y loose_5
             (rel_x (-10)) 1 AXIS_NONE None);
      [reflexivity
      | unfold valid_threshold; int_consts; cbn; lia
      | int_consts; cbn; lia
      | reflexivity
      | unfold int32_range; int_consts; cbn; lia
      | left; reflexivity
      | cbn; lia].
  - apply (non_sticky_reversal_needs_twice_threshold EV_REL REL_X REL_Y loose_5
             (rel_x (-9)) 1 AXIS_NONE None);
      [reflexivity
      | unfold valid_threshold; int_consts; cbn; lia
      | int_consts; cbn; lia
      | reflexivity
      | unfold int32_range; int_consts; cbn; lia
      | left; reflexivity
      | cbn; lia].
Defined.

Lemma non_sticky_axis_change_witness :
  axis_constrain_handle_event EV_REL REL_X REL_Y loose_5
    (settled true 1 5 AXIS_NONE None) (rel_y 5)
  = (0, mk_data AXIS_NONE 5 5 5 5 None, rel_y 0)
  /\ axis_constrain_handle_event EV_REL REL_X REL_Y loose_5
       (settled false 1 5 AXIS_NONE None) (rel_x 5)
     = (0, settled true 1 5 AXIS_NONE None, rel_x 5)
  /\ axis_constrain_handle_event EV_REL REL_X REL_Y loose_5
       (settled true 1 5 AXIS_NONE None) (rel_y (-6))
     = (0, settled false (-1) 5 AXIS_NONE None, rel_y (-6)).
Proof.
  split; [| split].
  - apply (non_sticky_axis_change EV_REL REL_X REL_Y loose_5
             (rel_y 5) 1 AXIS_NONE None);
      [reflexivity
      | unfold valid_threshold; int_consts; cbn; lia
      | reflexivity
      | unfold int32_range; int_consts; cbn; lia].
  - apply (non_sticky_axis_change EV_REL REL_X REL_Y loose_5
             (rel_x 5) 1 AXIS_NONE None);
      [reflexivity
      | unfold valid_threshold; int_consts; cbn; lia
      | reflexivity
      | unfold int32_range; int_consts; cbn; lia].
  - apply (non_sticky_axis_change EV_REL REL_X REL_Y loose_5
             (rel_y (-6)) 1 AXIS_NONE None);
      [reflexivity
      | unfold valid_threshold; int_consts; cbn; lia
      | reflexivity
      | unfold int32_range; int_consts; cbn; lia].
Defined.

Lemma legacy_suppresses_only_off_axis_witness :
  snd (Legacy.axis_constrain_handle_event EV_REL REL_X REL_Y tracking_10
         (Legacy.mk_data AXIS_NONE 0 0 0 0 None) (rel_x 6))
  = rel_x 6
  /\ snd (Legacy.axis_constrain_handle_event EV_REL REL_X REL_Y tracking_10
            tracking_locked_x (rel_y 20))
     = rel_y 0
  /\ ev_value
       (snd (Legacy.axis_constrain_handle_event EV_REL REL_X REL_Y tracking_10
               tracking_locked_x (rel_y 20)))
     = 0
  /\ snd (Legacy.axis_constrain_handle_event EV_REL REL_X REL_Y tracking_10
            (Legacy.mk_data AXIS_NONE 9 0 0 0 None) (rel_y (-12)))
     = rel_y (-12)
  /\ snd (Legacy.axis_constrain_handle_event EV_REL REL_X REL_Y tracking_10
            (Legacy.mk_data AXIS_NONE 12 12 0 0 None) (rel_y 3))
     = rel_y 3.
Proof.
  split; [| split; [| split; [| split]]].
  - apply (legacy_suppresses_only_off_axis EV_REL REL_X REL_Y tracking_10
             (Legacy.mk_data AXIS_NONE 0 0 0 0 None) (rel_x 6)).
    reflexivity.
  - exact (proj1 (proj2 (legacy_suppresses_only_off_axis EV_REL REL_X REL_Y
                           tracking_10 tracking_locked_x (rel_y 20)))).
  - exact (proj1 (proj2 (proj2 (proj2
             (legacy_suppresses_only_off_axis EV_REL REL_X REL_Y
                tracking_10 tracking_locked_x (rel_y 20)))))).
  - exact (proj1 (proj2 (legacy_suppresses_only_off_axis EV_REL REL_X REL_Y
                           tracking_10
                           (Legacy.mk_data AXIS_NONE 9 0 0 0 None)
                           (rel_y (-12))))).
  - exact (proj1 (proj2 (legacy_suppresses_only_off_axis EV_REL REL_X REL_Y
                           tracking_10
                           (Legacy.mk_data AXIS_NONE 12 12 0 0 None)
                           (rel_y 3)))).
Defined.

Lemma legacy_lock_persists_witness :
  Legacy.locked_axis
    (fst (Legacy.process EV_REL REL_X REL_Y tracking_10 tracking_locked_x
            [rel_y 20; rel_x (-30); key_press; rel_y 5]))
  = AXIS_X
  /\ snd (Legacy.process EV_REL REL_X REL_Y tracking_10 tracking_locked_x
            [rel_y 20; rel_x (-30); key_press; rel_y 5])
     = [rel_y 0; rel_x (-30); key_press; rel_y 0].
Proof.
  destruct (legacy_lock_persists EV_REL REL_X REL_Y tracking_10 AXIS_X
              [rel_y 20; rel_x (-30); key_press; rel_y 5] tracking_locked_x)
    as (Hlock & Hout & _); [discriminate | reflexivity |].
  split; [exact Hlock | exact Hout].
Defined.

Lemma legacy_remainder_total_witness :
  Legacy.remainder_y
    (fst (Legacy.process EV_REL REL_X REL_Y tracking_10 tracking_locked_x
            [rel_y 20; rel_x (-30); key_press; rel_y 5]))
  = to_int32 (0 + (20 + (0 + (0 + (5 + 0)))))
  /\ Legacy.remainder_x
       (fst (Legacy.process EV_REL REL_X REL_Y tracking_10 tracking_locked_x
               [rel_y 20; rel_x (-30); key_press; rel_y 5]))
     = 0.
Proof.
  destruct (legacy_remainder_total EV_REL REL_X REL_Y tracking_10
              [rel_y 20; rel_x (-30); key_press; rel_y 5] tracking_locked_x)
    as (Hx & _ & _);
    [discriminate
    | unfold int32_range; int_consts; cbn; lia
    | unfold int32_range; int_consts; cbn; lia |].
  apply Hx; reflexivity.
Defined.

Lemma first_event_dead_zone_witness :
  snd (axis_constrain_handle_event EV_REL REL_X REL_Y sticky_10 initial_data
         (rel_y (-10)))
  = rel_y (-10)
  /\ snd (axis_constrain_handle_event EV_REL REL_X REL_Y loose_5 initial_data
            (rel_x 4))
     = rel_x 0.
Proof.
  split.
  - apply (first_event_dead_zone EV_REL REL_X REL_Y sticky_10 (rel_y (-10)));
      [unfold valid_threshold; int_consts; cbn; lia
      | reflexivity
      | unfold int32_range; int_consts; cbn; lia].
  - apply (first_event_dead_zone EV_REL REL_X REL_Y loose_5 (rel_x 4));
      [unfold valid_threshold; int_consts; cbn; lia
      | reflexivity
      | unfold int32_range; int_consts; cbn; lia].
Defined.
